(** * Damped harmonic oscillator simulator: the engine of [DHO.py]

    A shallow embedding of the callbacks of [DHO.py] ([simulate],
    [stop_simulation], [plot_data], [save_data]) and the properties of the
    run/stop life cycle, the recorded time series and the exported table.

    Python floats are IEEE 754 binary64 values, modelled by Rocq's primitive
    floats.  What the script obtains from the C library through Python or
    NumPy ([float] of a string, [np.exp], [np.cos], [np.sin], [pow], the sum
    inside [np.mean]) is the interface [Runtime]; everything else is defined
    here. *)

From Stdlib Require Import ZArith List String Ascii Bool Lia.
From Stdlib Require Import Floats DecimalString.
Import ListNotations.

Set Implicit Arguments.

Local Open Scope Z_scope.

(** ** Python exceptions and fallible computations *)

Inductive exn : Type :=
| ZeroDivisionError
| OverflowError
| ValueError
| KeyError
| IndexError.

Inductive result (A : Type) : Type :=
| Ok (a : A)
| Raise (e : exn).

Arguments Ok {A} a.
Arguments Raise {A} e.

Definition bind {A B : Type} (r : result A) (k : A -> result B) : result B :=
  match r with
  | Ok a => k a
  | Raise e => Raise e
  end.

Notation "x <- r ;; k" := (bind r (fun x => k))
  (at level 61, r at next level, right associativity).

(** ** Python numbers *)

Module Py.

(** [float(i)] of a Python [int], as in the mixed product [i*dt]: the nearest
    binary64 value, ties to even. *)
Definition float_of_int (z : Z) : float :=
  SF2Prim (binary_normalize prec emax z 0 false).

(** [a / b] on Python floats: a zero divisor raises. *)
Definition div (a b : float) : result float :=
  if is_zero b then Raise ZeroDivisionError else Ok (a / b)%float.

(** [int(x)]: truncation toward zero; NaN and the infinities raise. *)
Definition int (x : float) : result Z :=
  match Prim2SF x with
  | S754_nan => Raise ValueError
  | S754_infinity _ => Raise OverflowError
  | S754_zero _ => Ok 0
  | S754_finite s m e => Ok (cond_Zopp s (Z.shiftl (Zpos m) e))
  end.

(** [range(n)] as the list of its indices; empty when [n <= 0]. *)
Definition range (n : Z) : list nat := seq 0 (Z.to_nat n).

(** [np.pi] *)
Definition pi : float := 0x1.921fb54442d18p+1%float.

End Py.

(** ** Text of a float under the format [.2f] *)

Module Fmt.

Definition digits (n : Z) : string :=
  NilEmpty.string_of_uint (N.to_uint (Z.to_N n)).

Definition two_digits (n : Z) : string :=
  if n <? 10 then ("0" ++ digits n)%string else digits n.

(** the integer nearest to [m * 2^e * 100], ties to even *)
Definition hundredths (m : positive) (e : Z) : Z :=
  if 0 <=? e then Z.shiftl (Zpos m) e * 100
  else
    let den := Z.shiftl 1 (- e) in
    let q := (Zpos m * 100) / den in
    let r := (Zpos m * 100) mod den in
    match 2 * r ?= den with
    | Lt => q
    | Gt => q + 1
    | Eq => if Z.even q then q else q + 1
    end.

Definition sign (s : bool) : string := if s then "-"%string else ""%string.

Definition f2 (x : float) : string :=
  match Prim2SF x with
  | S754_nan => "nan"
  | S754_infinity s => sign s ++ "inf"
  | S754_zero s => sign s ++ "0.00"
  | S754_finite s m e =>
      let h := hundredths m e in
      sign s ++ digits (h / 100) ++ "." ++ two_digits (h mod 100)
  end%string.

End Fmt.

(** ** The C library behind Python and NumPy *)

Class Runtime : Type := {
  (** [float(s)] of the text of an entry; [None] when it raises. *)
  py_float : string -> option float;
  np_exp : float -> float;
  np_cos : float -> float;
  np_sin : float -> float;
  (** C [pow], behind the operator [**] of Python floats and NumPy scalars. *)
  libm_pow : float -> float -> float;
  (** [np.add.reduce] of an array that is not empty: NumPy adds in blocks
      and by several accumulators, in an order of its own. *)
  np_add_reduce : list float -> float
}.

Section Engine.

Context {RT : Runtime}.

(** [x ** 2] on a NumPy scalar: no exception. *)
Definition np_pow2 (x : float) : float := libm_pow x 2.

(** [y ** 2] on a Python float: an overflow of a finite base raises. *)
Definition py_pow2 (y : float) : result float :=
  let r := libm_pow y 2 in
  if is_finite y && is_infinity r then Raise OverflowError else Ok r.

(** [np.sqrt]: the correctly rounded square root, NaN below zero. *)
Definition np_sqrt (x : float) : float := sqrt x.

(** [np.mean] of a list: the sum over the length.  The sum of the empty
    array is [0.0], so that its mean is [0/0]; the sum of any other is the
    library's. *)
Definition np_sum (l : list float) : float :=
  match l with
  | [] => 0%float
  | _ :: _ => np_add_reduce l
  end.

Definition np_mean (l : list float) : float :=
  (np_sum l / Py.float_of_int (Z.of_nat (List.length l)))%float.

(** ** The recorded columns *)

Record columns : Type := Columns {
  times : list float;
  positions : list float;
  velocities : list float;
  accelerations : list float;
  kinetic_energy : list float;
  potential_energy : list float;
  total_energy : list float
}.

Definition no_columns : columns := Columns [] [] [] [] [] [] [].

(** [data_dict]: a Python dict keeps its keys in insertion order. *)
Definition dataset : Type := list (string * list float).

Definition publish (c : columns) : dataset :=
  [ ("Time (s)", times c);
    ("Position (m)", positions c);
    ("Velocity (m/s)", velocities c);
    ("Acceleration (m/s²)", accelerations c);
    ("Kinetic Energy (J)", kinetic_energy c);
    ("Potential Energy (J)", potential_energy c);
    ("Total Energy (J)", total_energy c) ]%string.

Fixpoint lookup (key : string) (d : dataset) : result (list float) :=
  match d with
  | [] => Raise KeyError
  | (k, v) :: d' => if String.eqb k key then Ok v else lookup key d'
  end.

Definition keys (d : dataset) : list string := map fst d.

(** ** The labels of the window *)

Inductive label_text : Type :=
| Blank
| EnterValidNumbers
| OverdampedCritical
| Parameters (omega0 y omega_d T : float)
| AvgTotalEnergy (avg : float).

Definition nl : string := String (ascii_of_nat 10) EmptyString.

Definition render (l : label_text) : string :=
  match l with
  | Blank => ""
  | EnterValidNumbers => "please enter valid 'numbers'."
  | OverdampedCritical => "overdamped / critical damping!"
  | Parameters omega0 y omega_d T =>
      "ω₀=" ++ Fmt.f2 omega0 ++ " | y=" ++ Fmt.f2 y ++ nl ++
      "ωd=" ++ Fmt.f2 omega_d ++ " | T=" ++ Fmt.f2 T
  | AvgTotalEnergy avg => "Avg Total Energy = " ++ Fmt.f2 avg ++ " j"
  end%string.

(** ** Global state: the two module variables and the two labels

    [updates] is a ghost counter of the calls of [canvas.update()], one per
    executed tick: no statement of the script reads it. *)

Record state : Type := State {
  running : bool;
  data_dict : option dataset;
  label_result : label_text;
  label_energy : label_text;
  updates : nat
}.

Definition initial : state := State false None Blank Blank 0.

Definition set_running (b : bool) (s : state) : state :=
  State b (data_dict s) (label_result s) (label_energy s) (updates s).

Definition set_data_dict (d : dataset) (s : state) : state :=
  State (running s) (Some d) (label_result s) (label_energy s) (updates s).

Definition set_label_result (l : label_text) (s : state) : state :=
  State (running s) (data_dict s) l (label_energy s) (updates s).

Definition set_label_energy (l : label_text) (s : state) : state :=
  State (running s) (data_dict s) (label_result s) l (updates s).

Definition count_update (s : state) : state :=
  State (running s) (data_dict s) (label_result s) (label_energy s)
        (S (updates s)).

(** ** [stop_simulation] *)

Definition stop_simulation (s : state) : state := set_running false s.

(** ** The five entries and their parsing *)

Record entries : Type := Entries {
  entry_m : string;
  entry_k : string;
  entry_x : string;
  entry_t : string;
  entry_b : string
}.

Record params : Type := Params {
  p_m : float;
  p_k : float;
  p_x0 : float;
  p_tmax : float;
  p_b : float
}.

(** The [try] block of [simulate]: any failing [float] leaves through the
    bare [except]. *)
Definition parse (E : entries) : option params :=
  match py_float (entry_m E) with
  | None => None
  | Some m =>
  match py_float (entry_k E) with
  | None => None
  | Some k =>
  match py_float (entry_x E) with
  | None => None
  | Some x0 =>
  match py_float (entry_t E) with
  | None => None
  | Some tmax =>
  match py_float (entry_b E) with
  | None => None
  | Some b => Some (Params m k x0 tmax b)
  end end end end end.

(** ** One tick *)

Definition fps : float := 60%float.
Definition dt : float := (1 / fps)%float.

Definition tick_time (i : nat) : float :=
  (Py.float_of_int (Z.of_nat i) * dt)%float.

Record sample : Type := Sample {
  s_t : float;
  s_x : float;
  s_v : float;
  s_a : float;
  s_ke : float;
  s_pe : float;
  s_te : float
}.

Section Tick.

Variables (m k x0 omega0 y omega_d : float).

Definition position (t : float) : float :=
  (x0 * np_exp (- y * t) * np_cos (omega_d * t))%float.

Definition velocity (t : float) : float :=
  (- x0 * np_exp (- y * t) *
     (y * np_cos (omega_d * t) + omega_d * np_sin (omega_d * t)))%float.

Definition acceleration (x v : float) : float :=
  (-2 * y * v - np_pow2 omega0 * x)%float.

Definition solve (t : float) : sample :=
  let x := position t in
  let v := velocity t in
  let a := acceleration x v in
  let ke := (0.5 * m * np_pow2 v)%float in
  let pe := (0.5 * k * np_pow2 x)%float in
  let te := (ke + pe)%float in
  Sample t x v a ke pe te.

Definition append (c : columns) (s : sample) : columns :=
  Columns (times c ++ [s_t s]) (positions c ++ [s_x s])
          (velocities c ++ [s_v s]) (accelerations c ++ [s_a s])
          (kinetic_energy c ++ [s_ke s]) (potential_energy c ++ [s_pe s])
          (total_energy c ++ [s_te s]).

(** After the seven appends a tick draws the spring and the mass on the
    canvas, which no callback reads back: the drawing is left out, and taken
    to return.  Then [canvas.update()] hands control to the event loop,
    which runs the callback of a pending click on Stop; [stop_clicked i]
    tells whether one is pending during tick [i].  The callbacks of Plot and
    Save write no state; a click on Start during a run, which would nest a
    second [simulate] in the first, is outside the model. *)
Variable stop_clicked : nat -> bool.

Definition canvas_update (i : nat) (s : state) : state :=
  let s := count_update s in
  if stop_clicked i then stop_simulation s else s.

(** The [for] loop over [range(frames)], with its [break]. *)
Fixpoint loop (idx : list nat) (c : columns) (s : state) : columns * state :=
  match idx with
  | [] => (c, s)
  | i :: rest =>
      if negb (running s) then (c, s)
      else
        let c' := append c (solve (tick_time i)) in
        loop rest c' (canvas_update i s)
  end.

End Tick.

(** ** [simulate] *)

Inductive outcome : Type :=
| RejectedInvalid       (** the [return] after the parse failure *)
| RejectedOverdamped    (** the [return] of the damping gate *)
| Uncaught (e : exn)    (** an exception left the callback *)
| Published.            (** the function ran to its end *)

Definition simulate (E : entries) (stop_clicked : nat -> bool) (s : state)
  : outcome * state :=
  let s := set_running true s in
  match parse E with
  | None => (RejectedInvalid, set_label_result EnterValidNumbers s)
  | Some (Params m k x0 tmax b) =>
  match Py.div k m with
  | Raise e => (Uncaught e, s)
  | Ok km =>
  let omega0 := np_sqrt km in
  match Py.div b (2 * m)%float with
  | Raise e => (Uncaught e, s)
  | Ok y =>
  if (omega0 <=? y)%float then
    (RejectedOverdamped, set_label_result OverdampedCritical s)
  else
  match py_pow2 y with
  | Raise e => (Uncaught e, s)
  | Ok y2 =>
  let omega_d := np_sqrt (np_pow2 omega0 - y2)%float in
  let T := (2 * Py.pi / omega_d)%float in
  let s := set_label_result (Parameters omega0 y omega_d T) s in
  match Py.int (tmax * fps)%float with
  | Raise e => (Uncaught e, s)
  | Ok frames =>
  let '(c, s) :=
    loop m k x0 omega0 y omega_d stop_clicked (Py.range frames) no_columns s in
  let s := set_data_dict (publish c) s in
  let avg_energy := np_mean (total_energy c) in
  (Published, set_label_energy (AvgTotalEnergy avg_energy) s)
  end end end end end.

End Engine.

(** ** [plot_data] *)

Record curve : Type := Curve {
  c_label : string;
  c_x : list float;
  c_y : list float
}.

Record subplot : Type := Subplot {
  title : string;
  curves : list curve
}.

(** [if not data_dict]: [None] and the empty dict are falsy. *)
Definition falsy (d : option dataset) : bool :=
  match d with
  | None | Some [] => true
  | Some (_ :: _) => false
  end.

(** [plt.plot(x, y, label=...)] refuses columns of different lengths. *)
Definition plot (d : dataset) (xkey ykey label : string) : result curve :=
  x <- lookup xkey d ;;
  y <- lookup ykey d ;;
  if Nat.eqb (List.length x) (List.length y) then Ok (Curve label x y)
  else Raise ValueError.

(** [None]: nothing is drawn.  Otherwise the figure handed to [plt.show()],
    or the exception that left the callback. *)
Definition plot_data (s : state) : option (result (list subplot)) :=
  if falsy (data_dict s) then None
  else
    match data_dict s with
    | None => None
    | Some d =>
        Some (
          p <- plot d "Time (s)" "Position (m)" "position" ;;
          v <- plot d "Time (s)" "Velocity (m/s)" "velocity" ;;
          a <- plot d "Time (s)" "Acceleration (m/s²)" "acceleration" ;;
          ke <- plot d "Time (s)" "Kinetic Energy (J)" "kinetic" ;;
          pe <- plot d "Time (s)" "Potential Energy (J)" "potential" ;;
          te <- plot d "Time (s)" "Total Energy (J)" "total" ;;
          Ok [ Subplot "damped motion" [p; v; a];
               Subplot "energies (decay due to damping)" [ke; pe; te] ])%string
    end.

(** ** [save_data] *)

Inductive cell : Type :=
| Text (s : string)
| Num (x : float).

Definition row : Type := list cell.

(** [[data_dict[key][i] for key in header]] *)
Fixpoint row_at (d : dataset) (header : list string) (i : nat) : result row :=
  match header with
  | [] => Ok []
  | key :: rest =>
      col <- lookup key d ;;
      match nth_error col i with
      | None => Raise IndexError
      | Some x => r <- row_at d rest i ;; Ok (Num x :: r)
      end
  end.

(** What [csv.writer] received, row by row, and the exception that cut the
    writing short, if any. *)
Record written : Type := Written {
  rows : list row;
  failure : option exn
}.

Fixpoint write_rows (d : dataset) (header : list string) (idx : list nat)
    (acc : list row) : written :=
  match idx with
  | [] => Written acc None
  | i :: rest =>
      match row_at d header i with
      | Raise e => Written acc (Some e)
      | Ok r => write_rows d header rest (acc ++ [r])
      end
  end.

(** [file_path] is the answer of the file dialog, empty when cancelled.
    [None]: no file is opened. *)
Definition save_data (file_path : string) (s : state) : option written :=
  if falsy (data_dict s) then None
  else
    match data_dict s with
    | None => None
    | Some d =>
        if String.eqb file_path "" then None
        else
          let header := keys d in
          let first := [map Text header] in
          match lookup "Time (s)" d with
          | Raise e => Some (Written first (Some e))
          | Ok ts =>
              Some (write_rows d header
                      (Py.range (Z.of_nat (List.length ts))) first)
          end
    end.

(** ** An executable runtime

    Decimal literals read with correct rounding, and the elementary
    functions by range reduction and truncated power series: enough to run
    the engine on examples.  Python's [float] accepts more texts than
    [decimal] (exponents, [inf], [nan], surrounding blanks) and gives the
    same value on those [decimal] accepts.  No theorem below depends on how
    these are computed, except through the examples that run them. *)

Module Libm.

(** the binary64 value nearest to [n/d], for positive [n] and [d] *)
Definition ratio (s : bool) (n d : Z) : float :=
  match n with
  | Z0 => SF2Prim (S754_zero s)
  | _ =>
      let '(q, e, l) := SFdiv_core_binary prec emax n 0 d 0 in
      SF2Prim (binary_round_aux prec emax s q e l)
  end.

Definition digit (c : ascii) : option Z :=
  let n := Z.of_nat (nat_of_ascii c) in
  if (48 <=? n) && (n <=? 57) then Some (n - 48) else None.

(** [digits][.digits]: the digits read so far as [n], whether one was seen,
    and the power of ten to divide by once the point is passed. *)
Fixpoint scan (s : string) (n : Z) (seen : bool) (den : option Z)
  : option (Z * Z) :=
  match s with
  | EmptyString =>
      if seen then Some (n, match den with Some d => d | None => 1 end)
      else None
  | String c rest =>
      match digit c with
      | Some v =>
          scan rest (10 * n + v) true
               (match den with Some d => Some (10 * d) | None => None end)
      | None =>
          if Ascii.eqb c "." then
            match den with
            | None => scan rest n seen (Some 1)
            | Some _ => None
            end
          else None
      end
  end.

Definition decimal (s : string) : option float :=
  let '(neg, body) :=
    match s with
    | String "-" rest => (true, rest)
    | String "+" rest => (false, rest)
    | _ => (false, s)
    end in
  match scan body 0 false None with
  | Some (n, d) => Some (ratio neg n d)
  | None => None
  end.

(** [1 + x/1 * (1 + x/2 * (1 + ...))], the series of the exponential, when
    started at [j = n] *)
Fixpoint horner (n : nat) (j : Z) (x acc : float) : float :=
  match n with
  | O => acc
  | S n' =>
      horner n' (j - 1) x (1 + x * acc / Py.float_of_int j)%float
  end.

Definition exp_series (x : float) : float := horner 40 40 x 1%float.

(** [x] brought into an interval around zero by a multiple of [2*pi] *)
Definition reduce (x : float) : float :=
  match Py.int (x / (2 * Py.pi) + (if (x <? 0)%float then -0.5 else 0.5))%float with
  | Ok n => (x - Py.float_of_int n * (2 * Py.pi))%float
  | Raise _ => nan
  end.

(** [1 - x2/(2*1) * (1 - x2/(4*3) * (...))] when started at [j = 2n], the
    series of the cosine in [x2 = x^2]; started at [j = 2n + 1] the divisors
    are [3*2], [5*4], ... and the series is that of [sin x / x] *)
Fixpoint alternating (n : nat) (j : Z) (x2 acc : float) : float :=
  match n with
  | O => acc
  | S n' =>
      alternating n' (j - 2) x2
        (1 - x2 * acc / Py.float_of_int (j * (j - 1)))%float
  end.

Definition cos_series (x : float) : float :=
  let r := reduce x in alternating 20 40 (r * r)%float 1%float.

Definition sin_series (x : float) : float :=
  let r := reduce x in (r * alternating 20 41 (r * r)%float 1)%float.

(** the script raises to the power two only *)
Definition pow (x e : float) : float :=
  if (e =? 2)%float then (x * x)%float else nan.

(** the items added one after the other, as NumPy adds fewer than eight *)
Definition add_reduce (l : list float) : float := fold_left add l 0%float.

#[export] Instance runtime : Runtime := {
  py_float := decimal;
  np_exp := exp_series;
  np_cos := cos_series;
  np_sin := sin_series;
  libm_pow := pow;
  np_add_reduce := add_reduce
}.

End Libm.

(** ** Auxiliary definitions for the proofs *)

(** The part of [simulate] before the loop, which no click can influence:
    either the run ends there, with the result label it has set, or the
    loop starts on the derived quantities. *)
Inductive prelude : Type :=
| Halt (o : outcome) (l : option label_text)
| Go (m k x0 omega0 y omega_d T : float) (frames : Z).

Section Characterisation.

Context {RT : Runtime}.

Definition prelude_of (E : entries) : prelude :=
  match parse E with
  | None => Halt RejectedInvalid (Some EnterValidNumbers)
  | Some (Params m k x0 tmax b) =>
  match Py.div k m with
  | Raise e => Halt (Uncaught e) None
  | Ok km =>
  let omega0 := np_sqrt km in
  match Py.div b (2 * m)%float with
  | Raise e => Halt (Uncaught e) None
  | Ok y =>
  if (omega0 <=? y)%float then Halt RejectedOverdamped (Some OverdampedCritical)
  else
  match py_pow2 y with
  | Raise e => Halt (Uncaught e) None
  | Ok y2 =>
  let omega_d := np_sqrt (np_pow2 omega0 - y2)%float in
  let T := (2 * Py.pi / omega_d)%float in
  match Py.int (tmax * fps)%float with
  | Raise e => Halt (Uncaught e) (Some (Parameters omega0 y omega_d T))
  | Ok frames => Go m k x0 omega0 y omega_d T frames
  end end end end end.

Section Ticks.

Variables (m k x0 omega0 y omega_d : float).
Variable stop_clicked : nat -> bool.

(** the columns after the ticks [l], one after the other *)
Definition record (c : columns) (l : list nat) : columns :=
  fold_left (fun c i => append c (solve m k x0 omega0 y omega_d (tick_time i)))
            l c.

(** how many ticks of [idx] the loop executes, entered with the flag [r] *)
Fixpoint executed (idx : list nat) (r : bool) : nat :=
  match idx with
  | [] => O
  | i :: rest => if r then S (executed rest (negb (stop_clicked i))) else O
  end.

(** the flag when the loop is left *)
Fixpoint flag_after (idx : list nat) (r : bool) : bool :=
  match idx with
  | [] => r
  | i :: rest => if r then flag_after rest (negb (stop_clicked i)) else false
  end.

End Ticks.

End Characterisation.

(** Binary64 values that are neither infinite nor NaN *)
Definition SFis_finite (x : spec_float) : bool :=
  match x with
  | S754_zero _ | S754_finite _ _ _ => true
  | S754_infinity _ | S754_nan => false
  end.

(** the mantissa of [dt]: [dt = dt_mantissa * 2^-58] *)
Definition dt_mantissa : Z := 4803839602528529.

(** the runs whose times are shown to increase strictly: up to [2^52]
    ticks, while the gap between two tick times is over a unit in the last
    place *)
Definition strict_ticks : Z := 2 ^ 52.

(** the record after [k] halvings of the mantissa [m0]: the quotient, and
    the remainder located against the half by the round and sticky bits *)
Definition halved (m0 : Z) (k : Z) (r : shr_record) : Prop :=
  0 <= shr_m r /\
  exists rem,
    m0 = 2 ^ k * shr_m r + rem /\
    0 <= 2 * rem - (if shr_r r then 2 ^ k else 0) < 2 ^ k /\
    (shr_s r = false <-> 2 * rem = (if shr_r r then 2 ^ k else 0)).

(** the row of sample [i] in the exported table *)
Definition row_of (c : columns) (i : nat) : row :=
  [ Num (nth i (times c) nan);
    Num (nth i (positions c) nan);
    Num (nth i (velocities c) nan);
    Num (nth i (accelerations c) nan);
    Num (nth i (kinetic_energy c) nan);
    Num (nth i (potential_energy c) nan);
    Num (nth i (total_energy c) nan) ].

(** columns of one length *)
Definition aligned (c : columns) (n : nat) : Prop :=
  List.length (times c) = n /\
  List.length (positions c) = n /\
  List.length (velocities c) = n /\
  List.length (accelerations c) = n /\
  List.length (kinetic_energy c) = n /\
  List.length (potential_energy c) = n /\
  List.length (total_energy c) = n.

(** ** Example runs *)

Module Examples.

Definition never : nat -> bool := fun _ => false.

(** a click on Stop during tick [j], and none before *)
Definition click_at (j : nat) : nat -> bool := fun i => Nat.eqb i j.

(** the default entries of the window, for a twentieth of a second *)
Definition brief : entries := Entries "1" "10" "1" "0.05" "0.1".

(** the default entries of the window *)
Definition default : entries := Entries "1" "10" "1" "10" "0.1".

Definition overdamped : entries := Entries "1" "1" "1" "10" "10".

Definition not_a_number : entries := Entries "abc" "10" "1" "10" "0.1".

Definition no_duration : entries := Entries "1" "10" "1" "0" "0.1".

Definition negative_duration : entries := Entries "1" "10" "1" "-1" "0.1".

(** [10^15] seconds *)
Definition geological : entries :=
  Entries "1" "10" "1" "1000000000000000" "0.1".

Definition run (E : entries) (stop_clicked : nat -> bool) (s : state)
  : outcome * state :=
  simulate (RT := Libm.runtime) E stop_clicked s.

(** the state after the brief run, started from the fresh window *)
Definition after_brief : state := snd (run brief never initial).

(** a published dataset read back as columns *)
Definition columns_of (d : option dataset) : columns :=
  match d with
  | Some [(_, t); (_, x); (_, v); (_, a); (_, ke); (_, pe); (_, te)] =>
      Columns t x v a ke pe te
  | _ => no_columns
  end.

Definition brief_columns : columns := columns_of (data_dict after_brief).

(** tick [2^53], the first whose index has no binary64 value after it *)
Definition late_tick : nat := Z.to_nat 9007199254740992.

End Examples.

(** ** A session at the window

    The main loop of Tk runs one callback per click and goes on after a
    callback that raised.  A click on Start carries the texts of the five
    entries at that moment and the clicks on Stop served during its run. *)

Inductive action : Type :=
| ClickStart (E : entries) (stop_clicked : nat -> bool)
| ClickStop
| ClickPlot
| ClickSave (file_path : string).

Definition is_start (a : action) : bool :=
  match a with
  | ClickStart _ _ => true
  | _ => false
  end.

Section Session.

Context {RT : Runtime}.

(** [plot_data] and [save_data] assign no global and configure no label. *)
Definition click (a : action) (s : state) : state :=
  match a with
  | ClickStart E stop_clicked => snd (simulate E stop_clicked s)
  | ClickStop => stop_simulation s
  | ClickPlot => s
  | ClickSave _ => s
  end.

Definition session_from (s : state) (l : list action) : state :=
  fold_left (fun s a => click a s) l s.

Definition session (l : list action) : state := session_from initial l.

End Session.

(** a dataset as [simulate] publishes them: seven columns of one length,
    the time column holding the tick times in order *)
Definition well_formed (d : option dataset) : Prop :=
  d = None \/
  exists c n,
    d = Some (publish c) /\ aligned c n /\ times c = map tick_time (seq 0 n).

(** the figure [plot_data] draws from the columns [c] *)
Definition figure_of (c : columns) : list subplot :=
  [ Subplot "damped motion"
      [ Curve "position" (times c) (positions c);
        Curve "velocity" (times c) (velocities c);
        Curve "acceleration" (times c) (accelerations c) ];
    Subplot "energies (decay due to damping)"
      [ Curve "kinetic" (times c) (kinetic_energy c);
        Curve "potential" (times c) (potential_energy c);
        Curve "total" (times c) (total_energy c) ] ]%string.

(** the table [save_data] writes from the columns [c] of length [n] *)
Definition table_of (c : columns) (n : nat) : written :=
  Written
    ([Text "Time (s)"; Text "Position (m)"; Text "Velocity (m/s)";
      Text "Acceleration (m/s²)"; Text "Kinetic Energy (J)";
      Text "Potential Energy (J)"; Text "Total Energy (J)"]%string
     :: map (row_of c) (seq 0 n))
    None.

(** two states that differ in [running] at most *)
Definition same_but_running (s1 s2 : state) : Prop :=
  data_dict s1 = data_dict s2 /\
  label_result s1 = label_result s2 /\
  label_energy s1 = label_energy s2 /\
  updates s1 = updates s2.

(** a decimal text of the number [10^n] *)
Fixpoint zeros (n : nat) : string :=
  match n with
  | O => EmptyString
  | S n' => String "0" (zeros n')
  end.

(** what [x <? 0] refuses: a NaN, a zero of either sign, or a value whose
    sign bit is clear *)
Definition SFnonneg (f : spec_float) : bool :=
  match f with
  | S754_infinity true | S754_finite true _ _ => false
  | _ => true
  end.

(** [added l r]: [r] comes from items of [l] and zeros by additions, in
    whatever order and grouping *)
Inductive added (l : list float) : float -> Prop :=
| added_zero : added l 0%float
| added_neg_zero : added l neg_zero
| added_item (x : float) : In x l -> added l x
| added_add (x y : float) : added l x -> added l y -> added l (x + y)%float.

(** further entries of the window *)
Module Scenarios.

Import Examples.

Definition massless : entries := Entries "0" "10" "1" "10" "0.1".

(** [10^309] seconds: [float] gives [inf] *)
Definition endless : entries :=
  Entries "1" "10" "1" (String "1" (zeros 309)) "0.1".

Definition negative_mass : entries := Entries "-1" "10" "1" "0.05" "0.1".

(** critical damping: [b/(2m) = 42/98 = 3/7 = sqrt(9/49) = sqrt(k/m)] *)
Definition critical : entries := Entries "49" "9" "1" "0.05" "42".

(** a light mass on a stiff spring, [m = 10^-10] and [k = 10^308]:
    underdamped, and [k/m] beyond the largest binary64 value *)
Definition stiff : entries :=
  Entries "0.0000000001" (String "1" (zeros 308)) "1" "0.05" "0.1".

(** the brief run, its numbers typed otherwise *)
Definition brief_retyped : entries :=
  Entries "1.0" "10.00" "1" "0.050" "0.1".

(** the five numbers of the entries, zeros when one is not a number *)
Definition params_of (E : entries) : params :=
  match parse (RT := Libm.runtime) E with
  | Some p => p
  | None => Params 0 0 0 0 0
  end.

(** Stop held down from tick [j] on *)
Definition held_from (j : nat) : nat -> bool := fun i => Nat.leb j i.

End Scenarios.

(** * Properties *)

(** ** Binary64 facts *)

Module IEEE.

Lemma Prim2SF_zero : Prim2SF zero = S754_zero false.
Proof. reflexivity. Qed.

Lemma Prim2SF_one : Prim2SF one = S754_finite false 4503599627370496 (-52).
Proof. vm_compute. reflexivity. Qed.

Lemma Prim2SF_infinity : Prim2SF infinity = S754_infinity false.
Proof. reflexivity. Qed.

Lemma is_zero_true (x : float) :
  is_zero x = true <-> exists s, Prim2SF x = S754_zero s.
Proof.
  unfold is_zero. rewrite eqb_spec, Prim2SF_zero.
  destruct (Prim2SF x) as [s|s| |s m e]; cbn.
  - split; eauto.
  - split; [destruct s; discriminate | intros [? ?]; discriminate].
  - split; [discriminate | intros [? ?]; discriminate].
  - split; [destruct s; discriminate | intros [? ?]; discriminate].
Qed.

Lemma zero_cases (x : float) : is_zero x = true -> x = zero \/ x = neg_zero.
Proof.
  intros H. apply is_zero_true in H. destruct H as [[|] H];
    [right | left]; apply Prim2SF_inj; rewrite H; reflexivity.
Qed.

Lemma SFeqb_refl_finite s m e :
  SFeqb (S754_finite s m e) (S754_finite s m e) = true.
Proof.
  unfold SFeqb, SFcompare. rewrite Z.compare_refl, Pos.compare_cont_refl.
  destruct s; reflexivity.
Qed.

Lemma is_finite_spec (x : float) : is_finite x = SFis_finite (Prim2SF x).
Proof.
  unfold is_finite, is_nan, is_infinity.
  rewrite !eqb_spec, abs_spec, Prim2SF_infinity.
  destruct (Prim2SF x) as [s|s| |s m e]; try reflexivity.
  - destruct s; reflexivity.
  - rewrite SFeqb_refl_finite. reflexivity.
Qed.

Lemma is_finite_true (x : float) :
  is_finite x = true ->
  (exists s, Prim2SF x = S754_zero s) \/
  (exists s m e, Prim2SF x = S754_finite s m e).
Proof.
  rewrite is_finite_spec.
  destruct (Prim2SF x) as [s|s| |s m e]; cbn; intros H;
    try discriminate; eauto 6.
Qed.

Lemma opp_finite (x : float) : is_finite (- x) = is_finite x.
Proof.
  rewrite !is_finite_spec, opp_spec.
  destruct (Prim2SF x); reflexivity.
Qed.

(** a finite value times a zero is a zero *)
Lemma mul_zero_r (a z : float) :
  is_finite a = true -> is_zero z = true -> is_zero (a * z) = true.
Proof.
  intros Ha Hz. apply is_zero_true in Hz. destruct Hz as [sz Hz].
  apply is_zero_true. apply is_finite_true in Ha.
  rewrite mul_spec, Hz. unfold SF64mul.
  destruct Ha as [[s ->] | (s & m & e & ->)]; cbn; eauto.
Qed.

(** adding a zero changes nothing, except the sign of the negative zero *)
Lemma add_zero_r (y z : float) :
  y <> neg_zero -> is_zero z = true -> (y + z)%float = y.
Proof.
  intros Hy Hz. apply is_zero_true in Hz. destruct Hz as [sz Hz].
  apply Prim2SF_inj. rewrite add_spec, Hz. unfold SF64add.
  destruct (Prim2SF y) as [s|s| |s m e] eqn:E; cbn; auto.
  destruct s, sz; auto.
  exfalso. apply Hy. apply Prim2SF_inj. rewrite E. reflexivity.
Qed.

Lemma iter_pos_shr_1_exact (n : positive) (m : positive) :
  iter_pos shr_1 n (Build_shr_record (Zpos (Pos.iter xO m n)) false false)
  = Build_shr_record (Zpos m) false false.
Proof.
  revert m. induction n as [n IH|n IH|]; intros m.
  - change (Pos.iter xO m n~1) with (xO (Pos.iter xO (Pos.iter xO m n) n)).
    change (iter_pos shr_1 n~1 ?x)
      with (iter_pos shr_1 n (iter_pos shr_1 n (shr_1 x))).
    cbn [shr_1 orb]. rewrite IH, IH. reflexivity.
  - change (Pos.iter xO m n~0) with (Pos.iter xO (Pos.iter xO m n) n).
    change (iter_pos shr_1 n~0 ?x)
      with (iter_pos shr_1 n (iter_pos shr_1 n x)).
    rewrite IH, IH. reflexivity.
  - reflexivity.
Qed.

Lemma digits2_pos_iter (n m : positive) :
  Zpos (digits2_pos (Pos.iter xO m n)) = Zpos (digits2_pos m) + Zpos n.
Proof.
  revert m. induction n as [n IH|n IH|]; intros m.
  - change (Pos.iter xO m n~1) with (xO (Pos.iter xO (Pos.iter xO m n) n)).
    cbn [digits2_pos]. rewrite Pos2Z.inj_succ, IH, IH. lia.
  - change (Pos.iter xO m n~0) with (Pos.iter xO (Pos.iter xO m n) n).
    rewrite IH, IH. lia.
  - cbn. lia.
Qed.

Lemma mul_pow2 (m : positive) :
  (m * 4503599627370496)%positive = Pos.iter xO m 52.
Proof. rewrite Pos.mul_comm. reflexivity. Qed.

(** the product of a canonical mantissa with [2^52 * 2^-52] is shifted back
    by 52 places without loss *)
Lemma mul_one_finite s m e :
  valid_binary (S754_finite s m e) = true ->
  SF64mul (S754_finite s m e) (S754_finite false 4503599627370496 (-52))
  = S754_finite s m e.
Proof.
  cbn [valid_binary SpecFloat.valid_binary]. unfold bounded, canonical_mantissa.
  intros H. apply andb_prop in H. destruct H as [Hc Hb].
  apply Z.eqb_eq in Hc. apply Z.leb_le in Hb.
  unfold SF64mul, SFmul. rewrite mul_pow2, xorb_false_r.
  unfold binary_round_aux.
  assert (E1 : shr_fexp prec emax (Zpos (Pos.iter xO m 52)) (e + -52) loc_Exact
               = (Build_shr_record (Zpos m) false false, e)).
  { unfold shr_fexp. cbn [Zdigits2]. rewrite digits2_pos_iter.
    replace (Z.pos (digits2_pos m) + 52 + (e + -52))
      with (Z.pos (digits2_pos m) + e) by lia.
    rewrite Hc. replace (e - (e + -52)) with 52 by lia.
    unfold shr. cbn [shr_record_of_loc]. rewrite iter_pos_shr_1_exact.
    f_equal. lia. }
  rewrite E1. cbn [shr_m loc_of_shr_record round_nearest_even].
  assert (E2 : shr_fexp prec emax (Zpos m) e loc_Exact
               = (Build_shr_record (Zpos m) false false, e)).
  { unfold shr_fexp. cbn [Zdigits2]. rewrite Hc, Z.sub_diag. reflexivity. }
  rewrite E2. cbn [shr_m]. apply Z.leb_le in Hb. rewrite Hb. reflexivity.
Qed.

Lemma mul_1_r (x : float) : (x * 1)%float = x.
Proof.
  apply Prim2SF_inj. rewrite mul_spec. change 1%float with one.
  rewrite Prim2SF_one.
  pose proof (Prim2SF_valid x) as V.
  destruct (Prim2SF x) as [s|s| |s m e].
  - cbn. now rewrite xorb_false_r.
  - cbn. now rewrite xorb_false_r.
  - reflexivity.
  - now apply mul_one_finite.
Qed.

Lemma iter_pos_nat {A : Type} (f : A -> A) (p : positive) (x : A) :
  iter_pos f p x = Nat.iter (Pos.to_nat p) f x.
Proof.
  revert x. induction p as [p IH|p IH|]; intros x; cbn [iter_pos].
  - rewrite !IH, Pos2Nat.inj_xI, <- Nat.iter_add, Nat.iter_succ_r.
    f_equal. lia.
  - rewrite !IH, Pos2Nat.inj_xO, <- Nat.iter_add. f_equal. lia.
  - reflexivity.
Qed.

Lemma halved_0 m0 : 0 <= m0 -> halved m0 0 (Build_shr_record m0 false false).
Proof.
  intros H. split; [exact H|]. exists 0. cbn [shr_m shr_r shr_s].
  rewrite Z.pow_0_r. split; [lia|]. split; [lia|]. split; auto.
Qed.

Lemma halved_step m0 k r :
  0 <= k -> halved m0 k r -> halved m0 (k + 1) (shr_1 r).
Proof.
  intros Hk [Hq (rem & E & B & S)].
  destruct r as [q r s]. cbn [shr_m shr_r shr_s] in *.
  assert (P : 2 ^ (k + 1) = 2 * 2 ^ k) by (rewrite Z.pow_add_r by lia; lia).
  assert (Pk : 0 < 2 ^ k) by (apply Z.pow_pos_nonneg; lia).
  assert (Ss : (r || s)%bool = false <-> rem = 0).
  { destruct r; cbn [orb].
    - split; [discriminate | lia].
    - destruct s.
      + split; [discriminate|]. intros R. apply S. lia.
      + split; [intros _; destruct S as [S1 _]; specialize (S1 eq_refl); lia
               | reflexivity]. }
  destruct q as [|[p|p|]|p]; cbn [shr_1]; unfold halved;
    cbn [shr_m shr_r shr_s]; try lia.
  - split; [lia|]. exists rem. rewrite P. split; [lia|]. split; [destruct r; lia|].
    rewrite Ss. lia.
  - split; [lia|]. exists (rem + 2 ^ k). rewrite P. split; [lia|].
    split; [destruct r; lia|]. rewrite Ss. lia.
  - split; [lia|]. exists rem. rewrite P. split; [lia|]. split; [destruct r; lia|].
    rewrite Ss. lia.
  - split; [lia|]. exists (rem + 2 ^ k). rewrite P. split; [lia|].
    split; [destruct r; lia|]. rewrite Ss. lia.
Qed.

Lemma halved_iter m0 n :
  0 <= m0 ->
  halved m0 (Z.of_nat n) (Nat.iter n shr_1 (Build_shr_record m0 false false)).
Proof.
  intros H. induction n as [|n IH].
  - now apply halved_0.
  - rewrite Nat2Z.inj_succ. cbn [Nat.iter nat_rect]. apply halved_step; [lia | exact IH].
Qed.

(** rounding to nearest after [k] halvings is within half a unit *)
Lemma round_halved m0 k r :
  0 <= k -> halved m0 k r ->
  let q := round_nearest_even (shr_m r) (loc_of_shr_record r) in
  0 <= q /\ - 2 ^ k <= 2 * (m0 - 2 ^ k * q) <= 2 ^ k.
Proof.
  intros Hk [Hq (rem & E & B & S)].
  destruct r as [q r s]. cbn [shr_m shr_r shr_s] in *.
  assert (Pk : 0 < 2 ^ k) by (apply Z.pow_pos_nonneg; lia).
  destruct r, s; cbn [loc_of_shr_record round_nearest_even].
  - split; [lia|]. lia.
  - destruct S as [S1 _]. specialize (S1 eq_refl).
    destruct (Z.even q); split; lia.
  - split; lia.
  - destruct S as [S1 _]. specialize (S1 eq_refl). split; lia.
Qed.

(** ** Mantissas and their number of digits *)

Lemma digits2_pos_bounds (p : positive) :
  2 ^ (Zpos (digits2_pos p) - 1) <= Zpos p < 2 ^ Zpos (digits2_pos p).
Proof.
  induction p as [p IH|p IH|]; cbn [digits2_pos].
  - rewrite Pos2Z.inj_succ. change (Zpos p~1) with (2 * Zpos p + 1).
    replace (Z.succ (Zpos (digits2_pos p)) - 1) with (Z.succ (Zpos (digits2_pos p) - 1)) by lia.
    rewrite !Z.pow_succ_r by lia.
    set (a := 2 ^ (Zpos (digits2_pos p) - 1)) in *.
    set (b := 2 ^ Zpos (digits2_pos p)) in *. lia.
  - rewrite Pos2Z.inj_succ. change (Zpos p~0) with (2 * Zpos p).
    replace (Z.succ (Zpos (digits2_pos p)) - 1) with (Z.succ (Zpos (digits2_pos p) - 1)) by lia.
    rewrite !Z.pow_succ_r by lia.
    set (a := 2 ^ (Zpos (digits2_pos p) - 1)) in *.
    set (b := 2 ^ Zpos (digits2_pos p)) in *. lia.
  - cbn. lia.
Qed.

Lemma digits2_pos_unique (p : positive) (n : Z) :
  2 ^ (n - 1) <= Zpos p < 2 ^ n -> Zpos (digits2_pos p) = n.
Proof.
  intros [L U]. pose proof (digits2_pos_bounds p) as [L' U'].
  assert (0 < n).
  { destruct (Z_lt_le_dec 0 n) as [|N]; [assumption|].
    destruct (Z.eq_dec n 0) as [->|]; [cbn in U; lia|].
    rewrite (Z.pow_neg_r 2 n) in U by lia. lia. }
  assert (Zpos (digits2_pos p) - 1 < n).
  { apply (Z.pow_lt_mono_r_iff 2); lia. }
  assert (n - 1 < Zpos (digits2_pos p)).
  { apply (Z.pow_lt_mono_r_iff 2); lia. }
  lia.
Qed.

(** ** Rounding a canonical mantissa changes nothing *)

Lemma round_canonical sx (m : positive) (e : Z) :
  Zpos (digits2_pos m) = 53 -> -1074 <= e <= 971 ->
  binary_round_aux prec emax sx (Zpos m) e loc_Exact = S754_finite sx m e.
Proof.
  intros Hd He. unfold binary_round_aux.
  assert (E : shr_fexp prec emax (Zpos m) e loc_Exact
              = (Build_shr_record (Zpos m) false false, e)).
  { unfold shr_fexp, fexp, SpecFloat.emin. cbn [Zdigits2]. rewrite Hd.
    change (3 - emax - prec) with (-1074). change prec with 53.
    replace (Z.max (53 + e - 53) (-1074) - e) with 0 by lia. reflexivity. }
  rewrite E. cbn [shr_m loc_of_shr_record round_nearest_even]. rewrite E.
  cbn [shr_m]. change (emax - prec) with 971.
  destruct (Z.leb_spec e 971); [reflexivity | lia].
Qed.

(** ** Rounding a long mantissa: the result is within half a unit *)

Lemma round_long sx (P : positive) (ex : Z) :
  let d := Zpos (digits2_pos P) in
  53 < d -> -1074 <= d + ex - 53 -> d + ex - 53 < 971 ->
  exists Q e,
    binary_round_aux prec emax sx (Zpos P) ex loc_Exact = S754_finite sx Q e /\
    2 ^ 52 <= Zpos Q < 2 ^ 53 /\
    ex + (d - 53) <= e /\
    - 2 ^ (d - 53) <= 2 * (Zpos P - 2 ^ (e - ex) * Zpos Q) <= 2 ^ (d - 53).
Proof.
  intros d Hd Hn Ho. unfold binary_round_aux.
  pose proof (digits2_pos_bounds P) as [BL BU]. fold d in BL, BU.
  assert (K : exists k, d - 53 = Zpos k).
  { destruct (d - 53) as [|k|k] eqn:E; try lia. eauto. }
  destruct K as [k K].
  assert (E1 : shr_fexp prec emax (Zpos P) ex loc_Exact
               = (iter_pos shr_1 k (Build_shr_record (Zpos P) false false),
                  ex + Zpos k)).
  { unfold shr_fexp, fexp, SpecFloat.emin. cbn [Zdigits2]. fold d.
    change (3 - emax - prec) with (-1074). change prec with 53.
    replace (Z.max (d + ex - 53) (-1074) - ex) with (Zpos k) by lia.
    reflexivity. }
  rewrite E1, iter_pos_nat.
  pose proof (@halved_iter (Zpos P) (Pos.to_nat k) ltac:(lia)) as H.
  rewrite positive_nat_Z in H.
  pose proof (@round_halved (Zpos P) (Zpos k) _ ltac:(lia) H) as [Q0 QB].
  cbv zeta in Q0, QB.
  set (r := Nat.iter (Pos.to_nat k) shr_1 (Build_shr_record (Zpos P) false false)) in *.
  set (q := round_nearest_even (shr_m r) (loc_of_shr_record r)) in *.
  assert (Pk : 0 < 2 ^ Zpos k) by (apply Z.pow_pos_nonneg; lia).
  assert (D1 : 2 ^ (d - 1) = 2 ^ 52 * 2 ^ Zpos k).
  { rewrite <- Z.pow_add_r by lia. f_equal. lia. }
  assert (D2 : 2 ^ d = 2 ^ 53 * 2 ^ Zpos k).
  { rewrite <- Z.pow_add_r by lia. f_equal. lia. }
  change (2 ^ 52) with 4503599627370496 in *.
  change (2 ^ 53) with 9007199254740992 in *.
  assert (QL : 4503599627370496 <= q) by nia.
  assert (QU : q <= 9007199254740992) by nia.
  destruct q as [|q1|q1] eqn:Eq; try lia.
  destruct (Z.eq_dec (Zpos q1) 9007199254740992) as [Top|NTop].
  - (* the rounding has reached 2^53: one more halving *)
    assert (E2 : shr_fexp prec emax (Zpos q1) (ex + Zpos k) loc_Exact
                 = (Build_shr_record 4503599627370496 false false,
                    ex + Zpos k + 1)).
    { injection Top as ->. unfold shr_fexp, fexp, SpecFloat.emin.
      change (3 - emax - prec) with (-1074). change prec with 53.
      change (Zdigits2 9007199254740992) with 54.
      replace (Z.max (54 + (ex + Z.pos k) - 53) (-1074) - (ex + Z.pos k))
        with 1 by lia.
      reflexivity. }
    rewrite E2. cbn [shr_m]. change (emax - prec) with 971.
    destruct (Z.leb_spec (ex + Zpos k + 1) 971); [|lia].
    eexists. eexists. split; [reflexivity|].
    split; [lia|]. split; [lia|].
    replace (ex + Zpos k + 1 - ex) with (Zpos k + 1) by lia.
    rewrite Z.pow_add_r by lia. rewrite K. change (2 ^ 1) with 2. lia.
  - assert (Dq : Zpos (digits2_pos q1) = 53).
    { apply digits2_pos_unique. change (2 ^ (53 - 1)) with 4503599627370496.
      change (2 ^ 53) with 9007199254740992. lia. }
    assert (E2 : shr_fexp prec emax (Zpos q1) (ex + Zpos k) loc_Exact
                 = (Build_shr_record (Zpos q1) false false, ex + Zpos k)).
    { unfold shr_fexp, fexp, SpecFloat.emin. cbn [Zdigits2]. rewrite Dq.
      change (3 - emax - prec) with (-1074). change prec with 53.
      replace (Z.max (53 + (ex + Z.pos k) - 53) (-1074) - (ex + Z.pos k))
        with 0 by lia.
      reflexivity. }
    rewrite E2. cbn [shr_m]. change (emax - prec) with 971.
    destruct (Z.leb_spec (ex + Zpos k) 971); [|lia].
    eexists. eexists. split; [reflexivity|].
    split; [lia|]. split; [lia|].
    replace (ex + Zpos k - ex) with (Zpos k) by lia. rewrite K. lia.
Qed.

(** ** The order of two canonical positive values, from their values *)

Lemma SFltb_of_values (Q Q' : positive) (e e' c : Z) :
  2 ^ 52 <= Zpos Q < 2 ^ 53 -> 2 ^ 52 <= Zpos Q' < 2 ^ 53 ->
  c <= e -> c <= e' ->
  Zpos Q * 2 ^ (e - c) < Zpos Q' * 2 ^ (e' - c) ->
  SFltb (S754_finite false Q e) (S754_finite false Q' e') = true.
Proof.
  intros B B' He He' H. unfold SFltb, SFcompare.
  change (2 ^ 52) with 4503599627370496 in *.
  change (2 ^ 53) with 9007199254740992 in *.
  destruct (Z.compare_spec e e') as [->|L|G].
  - assert (Pk : 0 < 2 ^ (e' - c)) by (apply Z.pow_pos_nonneg; lia).
    assert (Zpos Q < Zpos Q') by nia.
    replace (Pos.compare_cont Eq Q Q') with (Pos.compare Q Q') by reflexivity.
    rewrite (proj2 (Pos.compare_lt_iff Q Q')) by lia. reflexivity.
  - reflexivity.
  - exfalso.
    assert (Pk : 0 < 2 ^ (e' - c)) by (apply Z.pow_pos_nonneg; lia).
    assert (S : 2 ^ (e - c) = 2 ^ (e - e') * 2 ^ (e' - c)).
    { rewrite <- Z.pow_add_r by lia. f_equal. lia. }
    assert (T : 2 <= 2 ^ (e - e')).
    { change 2 with (2 ^ 1) at 1. apply Z.pow_le_mono_r; lia. }
    nia.
Qed.

(** ** The time of a tick *)

Lemma iter_xO_value (n m : positive) :
  Zpos (Pos.iter xO m n) = Zpos m * 2 ^ Zpos n.
Proof.
  revert m. induction n as [n IH|n IH|]; intros m.
  - change (Pos.iter xO m n~1) with (xO (Pos.iter xO (Pos.iter xO m n) n)).
    change (Zpos (Pos.iter xO (Pos.iter xO m n) n)~0)
      with (2 * Zpos (Pos.iter xO (Pos.iter xO m n) n)).
    rewrite IH, IH.
    replace (Zpos n~1) with (Zpos n + Zpos n + 1) by lia.
    rewrite !Z.pow_add_r by lia. change (2 ^ 1) with 2. ring.
  - change (Pos.iter xO m n~0) with (Pos.iter xO (Pos.iter xO m n) n).
    rewrite IH, IH.
    replace (Zpos n~0) with (Zpos n + Zpos n) by lia.
    rewrite !Z.pow_add_r by lia. ring.
  - change (Pos.iter xO m 1) with (xO m). change (2 ^ 1) with 2. lia.
Qed.

(** an integer of at most 53 digits has a binary64 value: itself *)
Lemma float_of_pos (p : positive) :
  let d := Zpos (digits2_pos p) in
  d <= 53 ->
  exists mz,
    Prim2SF (Py.float_of_int (Zpos p)) = S754_finite false mz (d - 53) /\
    Zpos mz * 2 ^ (d - 1) = Zpos p * 2 ^ 52 /\
    Zpos (digits2_pos mz) = 53.
Proof.
  intros d Hd.
  assert (B : exists mz,
             binary_normalize prec emax (Zpos p) 0 false
             = S754_finite false mz (d - 53) /\
             Zpos mz * 2 ^ (d - 1) = Zpos p * 2 ^ 52 /\
             Zpos (digits2_pos mz) = 53).
  { cbn [binary_normalize]. unfold binary_round, shl_align, fexp, SpecFloat.emin.
    fold d. change (3 - emax - prec) with (-1074). change prec with 53.
    replace (Z.max (d + 0 - 53) (-1074)) with (d - 53) by lia.
    destruct (d - 53 - 0) as [|s|s] eqn:E; try lia.
    - assert (d = 53) by lia. exists p.
      rewrite round_canonical by (fold d; lia).
      replace (d - 53) with 0 by lia. replace (d - 1) with 52 by lia. auto.
    - exists (Pos.iter xO p s).
      assert (Ds : Zpos (digits2_pos (Pos.iter xO p s)) = 53)
        by (rewrite digits2_pos_iter; fold d; lia).
      rewrite round_canonical by (try exact Ds; lia).
      split; [reflexivity|]. split; [|exact Ds].
      rewrite iter_xO_value, <- Z.mul_assoc, <- Z.pow_add_r by lia.
      f_equal. f_equal. lia. }
  destruct B as (mz & E & V & Dz). exists mz.
  unfold Py.float_of_int. rewrite E, Prim2SF_SF2Prim; [auto|].
  cbn [valid_binary SpecFloat.valid_binary]. unfold bounded, canonical_mantissa, fexp, SpecFloat.emin.
  rewrite Dz. change (3 - emax - prec) with (-1074). change prec with 53.
  change (emax - 53) with 971.
  replace (Z.max (53 + (d - 53) - 53) (-1074)) with (d - 53) by lia.
  rewrite Z.eqb_refl. cbn [andb]. apply Z.leb_le. lia.
Qed.

Lemma Prim2SF_dt : Prim2SF dt = S754_finite false 4803839602528529 (-58).
Proof. vm_compute. reflexivity. Qed.

(** the time of tick [p], for [p] below [2^53]: a canonical value within
    half a unit in the last place of [p * dt], here on the scale where
    the unit is [2^-110] *)
Lemma tick_value (p : positive) :
  Zpos p < 2 ^ 53 ->
  exists Q e,
    Prim2SF (Py.float_of_int (Zpos p) * dt) = S754_finite false Q e /\
    2 ^ 52 <= Zpos Q < 2 ^ 53 /\
    -110 <= e /\
    - (Zpos p * dt_mantissa)
    <= 2 * (Zpos p * dt_mantissa * 2 ^ 52 - Zpos Q * 2 ^ (e + 110))
    <= Zpos p * dt_mantissa.
Proof.
  intros Hp.
  pose proof (digits2_pos_bounds p) as [PL PU].
  set (d := Zpos (digits2_pos p)) in *.
  assert (Hd : d <= 53).
  { assert (d - 1 < 53) by (apply (Z.pow_lt_mono_r_iff 2); lia). lia. }
  assert (Hd1 : 1 <= d) by (unfold d; lia).
  destruct (@float_of_pos p Hd) as (mz & E & V & Dz). fold d in E, V.
  pose proof (digits2_pos_bounds mz) as [ML MU]. rewrite Dz in ML, MU.
  rewrite mul_spec, E, Prim2SF_dt. unfold SF64mul, SFmul. cbn [xorb].
  set (P := (mz * 4803839602528529)%positive).
  assert (VP : Zpos P = Zpos mz * dt_mantissa) by reflexivity.
  pose proof (digits2_pos_bounds P) as [BL BU].
  set (dP := Zpos (digits2_pos P)) in *.
  change (2 ^ (53 - 1)) with 4503599627370496 in ML.
  change (2 ^ 53) with 9007199254740992 in MU.
  assert (PL' : 2 ^ 104 <= Zpos P)
    by (rewrite VP; unfold dt_mantissa; change (2 ^ 104) with 20282409603651670423947251286016; nia).
  assert (PU' : Zpos P < 2 ^ 106)
    by (rewrite VP; unfold dt_mantissa; change (2 ^ 106) with 81129638414606681695789005144064; nia).
  assert (DL : 104 < dP) by (apply (Z.pow_lt_mono_r_iff 2); lia).
  assert (DU : dP - 1 < 106) by (apply (Z.pow_lt_mono_r_iff 2); lia).
  destruct (@round_long false P (d - 53 + -58)) as (Q & e & R & QB & Le & Err);
    fold dP; try lia.
  fold dP in Le, Err.
  exists Q, e. split; [exact R|]. split; [exact QB|]. split; [lia|].
  (* rescaling by [2^(d-1)] *)
  set (A := 2 ^ (d - 1)) in *.
  set (G := 2 ^ (dP - 53)) in *.
  set (X := 2 ^ (e - (d - 53 + -58))) in *.
  assert (PA : 0 < A) by (apply Z.pow_pos_nonneg; lia).
  assert (PG : 0 < G) by (apply Z.pow_pos_nonneg; lia).
  assert (XA : 2 ^ (e + 110) = X * A).
  { unfold X, A. rewrite <- Z.pow_add_r by lia. f_equal. lia. }
  assert (GA : 2 ^ (dP - 1) = G * 2 ^ 52).
  { unfold G. rewrite <- Z.pow_add_r by lia. f_equal. lia. }
  rewrite XA. rewrite GA in BL. rewrite VP in *.
  set (M := Zpos mz) in *. set (N := Zpos p) in *. set (q := Zpos Q) in *.
  set (T := 2 ^ 52) in *.
  assert (PT : 0 < T) by reflexivity.
  (* V : M * A = N * T;  BL : G * T <= M * D;  Err on M * D - X * q *)
  assert (S1 : 2 * (N * dt_mantissa * T - q * (X * A))
               = A * (2 * (M * dt_mantissa - X * q))).
  { replace (N * dt_mantissa * T) with ((N * T) * dt_mantissa) by ring.
    rewrite <- V. ring. }
  assert (S2 : A * G <= N * dt_mantissa).
  { apply (Z.mul_le_mono_pos_r _ _ T PT).
    replace (N * dt_mantissa * T) with ((N * T) * dt_mantissa) by ring.
    rewrite <- V.
    replace (A * G * T) with (A * (G * T)) by ring.
    replace (M * A * dt_mantissa) with (A * (M * dt_mantissa)) by ring.
    apply Z.mul_le_mono_nonneg_l; lia. }
  rewrite S1.
  assert (S3 : - (A * G) <= A * (2 * (M * dt_mantissa - X * q)) <= A * G).
  { split.
    - replace (- (A * G)) with (A * - G) by ring.
      apply Z.mul_le_mono_nonneg_l; lia.
    - apply Z.mul_le_mono_nonneg_l; lia. }
  lia.
Qed.

(** consecutive ticks differ by more than their rounding errors *)
Lemma tick_value_increasing (p : positive) :
  Zpos p + 1 <= 2 ^ 52 ->
  (Py.float_of_int (Zpos p) * dt <? Py.float_of_int (Zpos p + 1) * dt)%float = true.
Proof.
  intros Hp. change (2 ^ 52) with 4503599627370496 in Hp.
  destruct (@tick_value p) as (Q & e & E & B & Le & Err);
    [change (2 ^ 53) with 9007199254740992; lia|].
  replace (Zpos p + 1) with (Zpos (p + 1)) by lia.
  destruct (@tick_value (p + 1)) as (Q' & e' & E' & B' & Le' & Err');
    [change (2 ^ 53) with 9007199254740992; lia|].
  rewrite ltb_spec, E, E'.
  apply (@SFltb_of_values Q Q' e e' (-110)); try assumption.
  replace (e - -110) with (e + 110) by lia.
  replace (e' - -110) with (e' + 110) by lia.
  replace (Zpos (p + 1)) with (Zpos p + 1) in Err' by lia.
  unfold dt_mantissa in *. change (2 ^ 52) with 4503599627370496 in *.
  set (F := Zpos Q * 2 ^ (e + 110)) in *.
  set (F' := Zpos Q' * 2 ^ (e' + 110)) in *.
  lia.
Qed.

End IEEE.

(** ** The loop *)

Lemma firstn_seq_le (n a len : nat) :
  (n <= len)%nat -> firstn n (seq a len) = seq a n.
Proof.
  revert a len. induction n as [|n IH]; intros a len H.
  - reflexivity.
  - destruct len as [|len]; [lia|]. cbn. f_equal. apply IH. lia.
Qed.

Section LoopFacts.

Context {RT : Runtime}.
Variables (m k x0 omega0 y omega_d : float).
Variable stop_clicked : nat -> bool.

Local Abbreviation smp := (fun i => solve m k x0 omega0 y omega_d (tick_time i)).
Local Abbreviation rec := (record m k x0 omega0 y omega_d).

Lemma record_app c l1 l2 : rec c (l1 ++ l2) = rec (rec c l1) l2.
Proof. apply fold_left_app. Qed.

Lemma record_columns c l :
  rec c l =
  Columns (times c ++ map tick_time l)
          (positions c ++ map (fun i => s_x (smp i)) l)
          (velocities c ++ map (fun i => s_v (smp i)) l)
          (accelerations c ++ map (fun i => s_a (smp i)) l)
          (kinetic_energy c ++ map (fun i => s_ke (smp i)) l)
          (potential_energy c ++ map (fun i => s_pe (smp i)) l)
          (total_energy c ++ map (fun i => s_te (smp i)) l).
Proof.
  revert c. induction l as [|i l IH]; intros c.
  - destruct c; cbn. now rewrite !app_nil_r.
  - cbn [record fold_left]. fold (rec (append c (smp i)) l). rewrite IH.
    cbn. now rewrite <- !app_assoc.
Qed.

(** the loop leaves the module variable [data_dict] and the labels alone,
    counts one update per executed tick, and records exactly those ticks *)
Lemma loop_spec idx c s :
  loop m k x0 omega0 y omega_d stop_clicked idx c s =
  (rec c (firstn (executed stop_clicked idx (running s)) idx),
   State (flag_after stop_clicked idx (running s)) (data_dict s)
         (label_result s) (label_energy s)
         (updates s + executed stop_clicked idx (running s))).
Proof.
  revert c s. induction idx as [|i rest IH]; intros c s.
  - destruct s; cbn. now rewrite Nat.add_0_r.
  - destruct s as [r d lr le u]. cbn [loop executed flag_after running].
    destruct r; cbn [negb].
    + rewrite IH.
      unfold canvas_update, stop_simulation, count_update, set_running.
      destruct (stop_clicked i);
        cbn [running data_dict label_result label_energy updates negb
             firstn record fold_left executed flag_after];
        rewrite ?Nat.add_succ_r, ?Nat.add_0_r; reflexivity.
    + cbn [firstn record fold_left data_dict label_result label_energy updates].
      now rewrite Nat.add_0_r.
Qed.

Lemma executed_le idx r : (executed stop_clicked idx r <= List.length idx)%nat.
Proof.
  revert r. induction idx as [|i rest IH]; intros r; cbn.
  - lia.
  - destruct r; [specialize (IH (negb (stop_clicked i))) |]; lia.
Qed.

(** without a click before its last tick, the loop runs through *)
Lemma executed_all a n :
  (forall i, (a <= i)%nat -> (S i < a + n)%nat -> stop_clicked i = false) ->
  executed stop_clicked (seq a n) true = n.
Proof.
  revert a. induction n as [|n IH]; intros a H; cbn.
  - reflexivity.
  - destruct n as [|n'].
    + reflexivity.
    + rewrite (H a) by lia. cbn [negb]. f_equal. apply IH.
      intros i Hi Hj. apply H; lia.
Qed.

(** the first click, at tick [a + d], ends the loop after that tick *)
Lemma executed_first_click a n d :
  (d < n)%nat ->
  stop_clicked (a + d)%nat = true ->
  (forall i, (a <= i)%nat -> (i < a + d)%nat -> stop_clicked i = false) ->
  executed stop_clicked (seq a n) true = S d /\
  flag_after stop_clicked (seq a n) true = false.
Proof.
  revert a n. induction d as [|d IH]; intros a n Hd Hc Hb.
  - destruct n as [|n]; [lia|]. cbn. rewrite Nat.add_0_r in Hc. rewrite Hc. cbn.
    destruct n; cbn; auto.
  - destruct n as [|n]; [lia|]. cbn. rewrite (Hb a) by lia. cbn [negb].
    destruct (IH (S a) n) as [E F].
    + lia.
    + rewrite <- Hc. f_equal. lia.
    + intros i Hi Hj. apply Hb; lia.
    + rewrite E, F. auto.
Qed.

Lemma flag_after_no_click idx :
  (forall i, stop_clicked i = false) ->
  flag_after stop_clicked idx true = true.
Proof.
  intros H. induction idx as [|i rest IH]; cbn; auto.
  rewrite H. exact IH.
Qed.

Lemma flag_after_false idx :
  flag_after stop_clicked idx true = false ->
  exists j, stop_clicked j = true.
Proof.
  induction idx as [|i rest IH]; cbn.
  - discriminate.
  - destruct (stop_clicked i) eqn:C; [eauto | exact IH].
Qed.

End LoopFacts.

(** ** The whole run *)

Section RunFacts.

Context {RT : Runtime}.

(** [simulate] is its prelude followed, when the prelude lets it, by the
    ticks the clicks allow, the publication and the mean. *)
Lemma simulate_prelude E stop_clicked s :
  simulate E stop_clicked s =
  match prelude_of E with
  | Halt o None => (o, set_running true s)
  | Halt o (Some l) => (o, set_label_result l (set_running true s))
  | Go m k x0 omega0 y omega_d T frames =>
      let n := executed stop_clicked (Py.range frames) true in
      let c := record m k x0 omega0 y omega_d no_columns (seq 0 n) in
      (Published,
       State (flag_after stop_clicked (Py.range frames) true)
             (Some (publish c))
             (Parameters omega0 y omega_d T)
             (AvgTotalEnergy (np_mean (total_energy c)))
             (updates s + n))
  end.
Proof.
  unfold simulate, prelude_of.
  destruct (parse E) as [[m k x0 tmax b]|]; [|reflexivity].
  destruct (Py.div k m) as [km|e]; [|reflexivity].
  destruct (Py.div b (2 * m)) as [y|e]; [|reflexivity].
  destruct (np_sqrt km <=? y)%float; [reflexivity|].
  destruct (py_pow2 y) as [y2|e]; [|reflexivity].
  destruct (Py.int (tmax * fps)) as [frames|e]; [|reflexivity].
  rewrite loop_spec. cbn [running set_running set_label_result].
  cbv zeta.
  assert (F : firstn (executed stop_clicked (Py.range frames) true)
                     (Py.range frames)
              = seq 0 (executed stop_clicked (Py.range frames) true)).
  { unfold Py.range at 2. apply firstn_seq_le.
    etransitivity; [apply executed_le|]. unfold Py.range.
    now rewrite length_seq. }
  rewrite F. reflexivity.
Qed.

(** what a prelude that reaches the loop has computed *)
Lemma prelude_go E m k x0 omega0 y omega_d T frames :
  prelude_of E = Go m k x0 omega0 y omega_d T frames ->
  exists tmax b,
    parse E = Some (Params m k x0 tmax b) /\
    Py.div k m = Ok (k / m)%float /\
    Py.div b (2 * m)%float = Ok (b / (2 * m))%float /\
    omega0 = np_sqrt (k / m) /\
    y = (b / (2 * m))%float /\
    (omega0 <=? y)%float = false /\
    omega_d = np_sqrt (np_pow2 omega0 - np_pow2 y) /\
    T = (2 * Py.pi / omega_d)%float /\
    Py.int (tmax * fps)%float = Ok frames.
Proof.
  unfold prelude_of.
  destruct (parse E) as [[m' k' x0' tmax b]|]; [|discriminate].
  unfold Py.div at 1.
  destruct (is_zero m') eqn:Zm; [discriminate|].
  unfold Py.div at 1.
  destruct (is_zero (2 * m')) eqn:Z2m; [discriminate|].
  destruct (np_sqrt (k' / m') <=? b / (2 * m'))%float eqn:G; [discriminate|].
  unfold py_pow2.
  destruct (is_finite (b / (2 * m')) && is_infinity (libm_pow (b / (2 * m')) 2));
    [discriminate|].
  destruct (Py.int (tmax * fps)) as [fr|e] eqn:I; [|discriminate].
  intros H. injection H as <- <- <- <- <- <- <- <-.
  exists tmax, b. unfold Py.div. rewrite Zm, Z2m. repeat split; auto.
Qed.

(** a published run, in closed form *)
Lemma simulate_published E stop_clicked s s' :
  simulate E stop_clicked s = (Published, s') ->
  exists m k x0 omega0 y omega_d T frames,
    prelude_of E = Go m k x0 omega0 y omega_d T frames /\
    let n := executed stop_clicked (Py.range frames) true in
    let c := record m k x0 omega0 y omega_d no_columns (seq 0 n) in
    s' = State (flag_after stop_clicked (Py.range frames) true)
               (Some (publish c))
               (Parameters omega0 y omega_d T)
               (AvgTotalEnergy (np_mean (total_energy c)))
               (updates s + n).
Proof.
  rewrite simulate_prelude.
  destruct (prelude_of E) as [o [l|]|m k x0 omega0 y omega_d T frames] eqn:P.
  - intros H. injection H as -> <-.
    unfold prelude_of in P.
    destruct (parse E) as [[m k x0 tmax b]|]; [|discriminate].
    destruct (Py.div k m); [|discriminate].
    destruct (Py.div b (2 * m)); [|discriminate].
    destruct (np_sqrt a <=? a0)%float; [discriminate|].
    destruct (py_pow2 a0); [|discriminate].
    destruct (Py.int (tmax * fps)); discriminate.
  - intros H. injection H as -> <-.
    unfold prelude_of in P.
    destruct (parse E) as [[m k x0 tmax b]|]; [|discriminate].
    destruct (Py.div k m); [|discriminate].
    destruct (Py.div b (2 * m)); [|discriminate].
    destruct (np_sqrt a <=? a0)%float; [discriminate|].
    destruct (py_pow2 a0); [|discriminate].
    destruct (Py.int (tmax * fps)); discriminate.
  - cbv zeta. intros H. injection H as <-.
    exists m, k, x0, omega0, y, omega_d, T, frames. split; reflexivity.
Qed.

Lemma nth_map_seq {A : Type} (f : nat -> A) (n i : nat) (d : A) :
  (i < n)%nat -> nth i (map f (seq 0 n)) d = f i.
Proof.
  intros H. rewrite (nth_indep _ d (f 0%nat)) by now rewrite length_map, length_seq.
  rewrite (map_nth f (seq 0 n) 0%nat i), seq_nth by assumption. reflexivity.
Qed.

End RunFacts.

Lemma publish_inj c1 c2 : publish c1 = publish c2 -> c1 = c2.
Proof.
  destruct c1, c2. unfold publish. cbn.
  intros H. injection H as -> -> -> -> -> -> ->. reflexivity.
Qed.

(** the columns of a run, each as the image of its ticks *)
Ltac project_columns :=
  rewrite ?record_columns;
  cbn [times positions velocities accelerations kinetic_energy
       potential_energy total_energy no_columns app].

(** ** The run/stop life cycle *)

Section LifeCycle.

Context {RT : Runtime}.

Lemma parse_none E :
  py_float (entry_m E) = None \/ py_float (entry_k E) = None \/
  py_float (entry_x E) = None \/ py_float (entry_t E) = None \/
  py_float (entry_b E) = None ->
  parse E = None.
Proof.
  unfold parse. intros H.
  destruct (py_float (entry_m E)); [|reflexivity].
  destruct (py_float (entry_k E)); [|reflexivity].
  destruct (py_float (entry_x E)); [|reflexivity].
  destruct (py_float (entry_t E)); [|reflexivity].
  destruct (py_float (entry_b E)); [|reflexivity].
  destruct H as [H|[H|[H|[H|H]]]]; discriminate.
Qed.

(** C2, amended: [running] is set by [simulate] and cleared by
    [stop_simulation] only.  A cleared flag ends the loop at the next check,
    before any further sample; a run during which Stop is never clicked
    leaves the flag set, whatever its outcome, and a published run that
    leaves it cleared has seen a click. *)
Theorem running_cleared_only_by_stop E stop_clicked s :
  running (stop_simulation s) = false /\
  (forall m k x0 omega0 y omega_d idx c,
      running s = false ->
      loop m k x0 omega0 y omega_d stop_clicked idx c s = (c, s)) /\
  ((forall i, stop_clicked i = false) ->
   running (snd (simulate E stop_clicked s)) = true) /\
  (forall s', simulate E stop_clicked s = (Published, s') ->
              running s' = false -> exists j, stop_clicked j = true).
Proof.
  split; [reflexivity|]. split; [|split].
  - intros m k x0 omega0 y omega_d idx c R.
    destruct idx as [|i rest]; cbn [loop]; [reflexivity|].
    rewrite R. reflexivity.
  - intros H. rewrite simulate_prelude.
    destruct (prelude_of E) as [o [l|]|m k x0 omega0 y omega_d T frames];
      cbn; auto using flag_after_no_click.
  - intros s' H R. apply simulate_published in H.
    destruct H as (m & k & x0 & omega0 & y & omega_d & T & frames & _ & ->).
    cbn in R. eapply flag_after_false; eauto.
Qed.

(** C3, amended: when one of the five entries is not the text of a number,
    the run is rejected as invalid, before any tick: the published dataset,
    the energy label and the tick count are as before, the result label
    carries the error message, and [running], set at the run request, is
    true. *)
Theorem invalid_input_rejected E stop_clicked s :
  py_float (entry_m E) = None \/ py_float (entry_k E) = None \/
  py_float (entry_x E) = None \/ py_float (entry_t E) = None \/
  py_float (entry_b E) = None ->
  exists s',
    simulate E stop_clicked s = (RejectedInvalid, s') /\
    label_result s' = EnterValidNumbers /\
    data_dict s' = data_dict s /\
    label_energy s' = label_energy s /\
    updates s' = updates s /\
    running s' = true.
Proof.
  intros H. apply parse_none in H. unfold simulate. rewrite H.
  eexists. split; [reflexivity|]. cbn. auto.
Qed.

(** C4, amended: the damping gate compares binary64 values.  For a mass
    that is not zero (so that both quotients are defined), the run ends at
    the gate exactly when the quotient [b/(2m)] is at least the rounded
    square root of the quotient [k/m]; its outcome and its message then
    differ from those of a parse failure, no tick is executed and the
    published dataset is as before. *)
Theorem overdamped_rejected E stop_clicked s m k x0 tmax b :
  parse E = Some (Params m k x0 tmax b) ->
  is_zero m = false ->
  is_zero (2 * m) = false ->
  (fst (simulate E stop_clicked s) = RejectedOverdamped <->
   (sqrt (k / m) <=? b / (2 * m))%float = true) /\
  ((sqrt (k / m) <=? b / (2 * m))%float = true ->
   exists s',
     simulate E stop_clicked s = (RejectedOverdamped, s') /\
     label_result s' = OverdampedCritical /\
     RejectedOverdamped <> RejectedInvalid /\
     render OverdampedCritical <> render EnterValidNumbers /\
     updates s' = updates s /\
     data_dict s' = data_dict s).
Proof.
  intros P Z1 Z2.
  assert (R : (sqrt (k / m) <=? b / (2 * m))%float = true ->
              simulate E stop_clicked s
              = (RejectedOverdamped,
                 set_label_result OverdampedCritical (set_running true s))).
  { intros G. unfold simulate, Py.div, np_sqrt. rewrite P, Z1, Z2, G.
    reflexivity. }
  split; [split|].
  - intros O. destruct (sqrt (k / m) <=? b / (2 * m))%float eqn:G;
      [reflexivity|]. exfalso. revert O.
    unfold simulate, Py.div, np_sqrt. rewrite P, Z1, Z2, G.
    destruct (py_pow2 _); [|cbn; discriminate].
    destruct (Py.int _); [|cbn; discriminate].
    destruct (loop _ _ _ _ _ _ _ _ _ _). cbn. discriminate.
  - intros G. now rewrite (R G).
  - intros G. rewrite (R G). eexists. split; [reflexivity|]. cbn.
    repeat split; auto; discriminate.
Qed.

(** C10: a run rejected before the loop, by the parse failure or by the
    damping gate, leaves [data_dict] as it was, so that plotting and saving
    still see the dataset of the previous run. *)
Theorem rejected_run_keeps_dataset E stop_clicked s o s' :
  simulate E stop_clicked s = (o, s') ->
  o = RejectedInvalid \/ o = RejectedOverdamped ->
  data_dict s' = data_dict s /\
  plot_data s' = plot_data s /\
  forall file_path, save_data file_path s' = save_data file_path s.
Proof.
  intros H Ho.
  assert (D : data_dict s' = data_dict s).
  { rewrite simulate_prelude in H.
    destruct (prelude_of E) as [o' [l|]|m k x0 omega0 y omega_d T frames].
    - injection H as _ <-. reflexivity.
    - injection H as _ <-. reflexivity.
    - cbv zeta in H. injection H as <- _. destruct Ho; discriminate. }
  unfold plot_data, save_data. rewrite D. auto.
Qed.

(** C9: after a run that reached the loop, [data_dict] holds seven
    columns under the seven names, and each of the seven has as many
    entries as ticks were executed. *)
Theorem columns_same_length E stop_clicked s s' :
  simulate E stop_clicked s = (Published, s') ->
  exists n ts xs vs accs kes pes tes,
    data_dict s' =
      Some [ ("Time (s)", ts); ("Position (m)", xs); ("Velocity (m/s)", vs);
             ("Acceleration (m/s²)", accs); ("Kinetic Energy (J)", kes);
             ("Potential Energy (J)", pes); ("Total Energy (J)", tes) ]%string /\
    updates s' = (updates s + n)%nat /\
    List.length ts = n /\
    List.length xs = n /\
    List.length vs = n /\
    List.length accs = n /\
    List.length kes = n /\
    List.length pes = n /\
    List.length tes = n.
Proof.
  intros H. apply simulate_published in H.
  destruct H as (m & k & x0 & omega0 & y & omega_d & T & frames & _ & ->).
  cbv zeta. cbn [data_dict updates set_label_energy set_data_dict].
  unfold publish. project_columns.
  do 8 eexists. split; [reflexivity|]. split; [reflexivity|].
  now rewrite !length_map, !length_seq.
Qed.

(** C7: when Stop is first clicked during tick [j] of a run that would
    otherwise execute [n > j] ticks, the run still publishes: [j + 1] ticks
    are executed, every column is the first [j + 1] entries of the column
    of the uninterrupted run, and [running] is false. *)
Theorem stop_takes_effect_after_the_tick E stop_clicked s s0 c0 n j :
  simulate E (fun _ => false) s = (Published, s0) ->
  data_dict s0 = Some (publish c0) ->
  updates s0 = (updates s + n)%nat ->
  (j < n)%nat ->
  stop_clicked j = true ->
  (forall i, (i < j)%nat -> stop_clicked i = false) ->
  exists s' c,
    simulate E stop_clicked s = (Published, s') /\
    data_dict s' = Some (publish c) /\
    running s' = false /\
    updates s' = (updates s + S j)%nat /\
    List.length (times c) = S j /\
    times c = firstn (S j) (times c0) /\
    positions c = firstn (S j) (positions c0) /\
    velocities c = firstn (S j) (velocities c0) /\
    accelerations c = firstn (S j) (accelerations c0) /\
    kinetic_energy c = firstn (S j) (kinetic_energy c0) /\
    potential_energy c = firstn (S j) (potential_energy c0) /\
    total_energy c = firstn (S j) (total_energy c0).
Proof.
  intros H0 D0 U0 Hj Hc Hb.
  apply simulate_published in H0.
  destruct H0 as (m & k & x0 & omega0 & y & omega_d & T & frames & P & ->).
  cbv zeta in D0, U0. cbn [data_dict updates] in D0, U0.
  assert (N : executed (fun _ => false) (Py.range frames) true = n) by lia.
  assert (F : executed (fun _ => false) (Py.range frames) true
              = Z.to_nat frames).
  { unfold Py.range. apply executed_all. reflexivity. }
  assert (C0 : c0 = record m k x0 omega0 y omega_d no_columns (seq 0 n)).
  { rewrite N in D0. symmetry. apply publish_inj. congruence. }
  destruct (@executed_first_click stop_clicked 0 (Z.to_nat frames) j)
    as [Ex Fl]; [lia | exact Hc | intros; apply Hb; lia |].
  rewrite simulate_prelude, P. cbv zeta. unfold Py.range. rewrite Ex, Fl.
  eexists. eexists. split; [reflexivity|]. split; [reflexivity|].
  split; [reflexivity|]. split; [reflexivity|].
  subst c0. project_columns.
  rewrite !length_map, !length_seq, !firstn_map, !firstn_seq_le by lia.
  repeat split.
Qed.

End LifeCycle.

(** ** The time axis *)

Lemma tick_time_0_1 : (tick_time 0 <? tick_time 1)%float = true.
Proof. vm_compute. reflexivity. Qed.

(** consecutive tick times increase strictly, up to [strict_ticks] *)
Lemma tick_time_increasing i :
  Z.of_nat (S i) <= strict_ticks ->
  (tick_time i <? tick_time (S i))%float = true.
Proof.
  unfold strict_ticks. change (2 ^ 52) with 4503599627370496.
  intros H. destruct i as [|i].
  - exact tick_time_0_1.
  - unfold tick_time.
    assert (P : exists p, Z.of_nat (S i) = Zpos p)
      by (exists (Pos.of_succ_nat i); lia).
    destruct P as [p P]. rewrite (Nat2Z.inj_succ (S i)) in *. rewrite P in *.
    change (Z.succ (Zpos p)) with (Zpos p + 1) in *.
    apply IEEE.tick_value_increasing.
    change (2 ^ 52) with 4503599627370496. exact H.
Qed.

Section TimeAxis.

Context {RT : Runtime}.

Lemma published_times E stop_clicked s s' :
  simulate E stop_clicked s = (Published, s') ->
  exists c tmax frames n,
    data_dict s' = Some (publish c) /\
    option_map p_tmax (parse E) = Some tmax /\
    Py.int (tmax * fps)%float = Ok frames /\
    n = executed stop_clicked (Py.range frames) true /\
    aligned c n /\
    times c = map tick_time (seq 0 n).
Proof.
  intros H. apply simulate_published in H.
  destruct H as (m & k & x0 & omega0 & y & omega_d & T & frames & P & ->).
  apply prelude_go in P.
  destruct P as (tmax & b & P & _ & _ & _ & _ & _ & _ & _ & I).
  cbv zeta. eexists. exists tmax, frames. eexists.
  split; [reflexivity|]. split; [now rewrite P|]. split; [exact I|].
  split; [reflexivity|]. unfold aligned. project_columns.
  rewrite !length_map, !length_seq. repeat split.
Qed.

(** C6, amended: in the time column of a published run the entry of index
    [i] is [float(i) * dt] with [dt = 1/60]; the column has at most
    [max(frames, 0)] entries, [frames] being [tmax * 60] truncated toward
    zero, and exactly that many when Stop is not clicked before the last
    tick; up to [strict_ticks] entries, each is strictly below the next. *)
Theorem time_axis E stop_clicked s s' :
  simulate E stop_clicked s = (Published, s') ->
  exists c tmax frames,
    data_dict s' = Some (publish c) /\
    option_map p_tmax (parse E) = Some tmax /\
    Py.int (tmax * 60)%float = Ok frames /\
    dt = (1 / 60)%float /\
    (forall i, (i < List.length (times c))%nat ->
       nth i (times c) nan = (Py.float_of_int (Z.of_nat i) * dt)%float) /\
    (List.length (times c) <= Z.to_nat frames)%nat /\
    ((forall i, (S i < Z.to_nat frames)%nat -> stop_clicked i = false) ->
     List.length (times c) = Z.to_nat frames) /\
    (Z.of_nat (List.length (times c)) <= strict_ticks ->
     forall i, (S i < List.length (times c))%nat ->
       (nth i (times c) nan <? nth (S i) (times c) nan)%float = true).
Proof.
  intros H. apply published_times in H.
  destruct H as (c & tmax & frames & n & D & P & I & N & A & Tm).
  exists c, tmax, frames.
  assert (L : List.length (times c) = n) by apply A.
  split; [exact D|]. split; [exact P|]. split; [exact I|].
  split; [reflexivity|]. rewrite L. split; [|split; [|split]].
  - intros i Hi. rewrite Tm, nth_map_seq by exact Hi. reflexivity.
  - subst n. etransitivity; [apply executed_le|]. unfold Py.range.
    now rewrite length_seq.
  - intros Hs. subst n. unfold Py.range. apply executed_all.
    intros i _ Hi. apply Hs. exact Hi.
  - intros Hn i Hi. rewrite Tm, !nth_map_seq by lia.
    apply tick_time_increasing. lia.
Qed.

End TimeAxis.

(** ** The samples *)

Section Solver.

Context {RT : Runtime}.

Lemma tick_time_0 : tick_time 0 = 0%float.
Proof. reflexivity. Qed.

(** the first sample, when the library gives [exp 0 = 1], [cos 0 = 1] and
    [sin 0 = 0] *)
Lemma first_sample x0 gamma omega_d :
  (forall z, is_zero z = true -> np_exp z = 1%float) ->
  (forall z, is_zero z = true -> np_cos z = 1%float) ->
  (forall z, is_zero z = true -> is_zero (np_sin z) = true) ->
  is_finite gamma = true ->
  is_finite omega_d = true ->
  gamma <> neg_zero ->
  position x0 gamma omega_d 0 = x0 /\
  velocity x0 gamma omega_d 0 = (- x0 * gamma)%float.
Proof.
  intros Hexp Hcos Hsin Fg Fo Ng.
  assert (Z0 : is_zero 0 = true) by reflexivity.
  assert (Zg : is_zero (- gamma * 0) = true).
  { apply IEEE.mul_zero_r; [now rewrite IEEE.opp_finite | exact Z0]. }
  assert (Zo : is_zero (omega_d * 0) = true)
    by (apply IEEE.mul_zero_r; assumption).
  unfold position, velocity.
  rewrite (Hexp _ Zg), (Hcos _ Zo), !IEEE.mul_1_r. split; [reflexivity|].
  rewrite IEEE.add_zero_r; [reflexivity | exact Ng |].
  apply IEEE.mul_zero_r; [exact Fo | apply Hsin, Zo].
Qed.

(** C5, amended: every recorded sample is given by the closed-form
    expressions of the damped motion, evaluated in binary64 at the time
    [t = float(i) * (1/60)] of its tick [i], on the damping factor
    [gamma = b/(2m)], the natural frequency [omega0 = sqrt(k/m)] and the
    damped frequency [omega_d = sqrt(omega0^2 - gamma^2)].  The first sample
    is computed by the same formulas, with no special case; it is [x = x0],
    [v = -x0*gamma] when the library gives [exp 0 = 1], [cos 0 = 1],
    [sin 0 = 0] and [gamma], [omega_d] are finite ([gamma] not the negative
    zero). *)
Theorem samples_follow_closed_form E stop_clicked s s' m k x0 tmax b :
  parse E = Some (Params m k x0 tmax b) ->
  simulate E stop_clicked s = (Published, s') ->
  let gamma := (b / (2 * m))%float in
  let omega0 := sqrt (k / m) in
  let omega_d := sqrt (libm_pow omega0 2 - libm_pow gamma 2) in
  exists ts xs vs accs kes pes tes,
    data_dict s' =
      Some [ ("Time (s)", ts); ("Position (m)", xs); ("Velocity (m/s)", vs);
             ("Acceleration (m/s²)", accs); ("Kinetic Energy (J)", kes);
             ("Potential Energy (J)", pes); ("Total Energy (J)", tes) ]%string /\
    (forall i, (i < List.length ts)%nat ->
       let t := (SF2Prim (binary_normalize prec emax (Z.of_nat i) 0 false)
                 * (1 / 60))%float in
       let x := nth i xs nan in
       let v := nth i vs nan in
       let ke := nth i kes nan in
       let pe := nth i pes nan in
       nth i ts nan = t /\
       x = (x0 * np_exp (- gamma * t) * np_cos (omega_d * t))%float /\
       v = (- x0 * np_exp (- gamma * t) *
              (gamma * np_cos (omega_d * t)
               + omega_d * np_sin (omega_d * t)))%float /\
       nth i accs nan = (-2 * gamma * v - libm_pow omega0 2 * x)%float /\
       ke = (0.5 * m * libm_pow v 2)%float /\
       pe = (0.5 * k * libm_pow x 2)%float /\
       nth i tes nan = (ke + pe)%float) /\
    ((forall z, is_zero z = true -> np_exp z = 1%float) ->
     (forall z, is_zero z = true -> np_cos z = 1%float) ->
     (forall z, is_zero z = true -> is_zero (np_sin z) = true) ->
     is_finite gamma = true ->
     is_finite omega_d = true ->
     gamma <> neg_zero ->
     (0 < List.length ts)%nat ->
     nth 0 ts nan = 0%float /\
     nth 0 xs nan = x0 /\
     nth 0 vs nan = (- x0 * gamma)%float).
Proof.
  intros P H. cbv zeta.
  apply simulate_published in H.
  destruct H as (m' & k' & x0' & omega0 & y & omega_d & T & frames & G & ->).
  apply prelude_go in G.
  destruct G as (tmax' & b' & P' & _ & _ & -> & -> & _ & -> & _ & _).
  rewrite P in P'. injection P' as <- <- <- <- <-.
  cbv zeta. cbn [data_dict]. unfold publish. project_columns.
  do 7 eexists. split; [reflexivity|].
  rewrite length_map, length_seq. split.
  - intros i Hi. rewrite !nth_map_seq by exact Hi.
    repeat split.
  - intros Hexp Hcos Hsin Fg Fo Ng Hn.
    rewrite !nth_map_seq by exact Hn.
    cbn [solve s_x s_v]. rewrite tick_time_0.
    split; [reflexivity|]. now apply first_sample.
Qed.

(** C1, as the code has it: a run whose frame count is not positive
    publishes seven empty columns; the mean of the empty energy column is
    computed all the same, it is NaN, and the energy label shows it. *)
Theorem empty_run_shows_nan E stop_clicked s s' tmax frames :
  option_map p_tmax (parse E) = Some tmax ->
  Py.int (tmax * fps)%float = Ok frames ->
  frames <= 0 ->
  simulate E stop_clicked s = (Published, s') ->
  data_dict s' = Some (publish no_columns) /\
  updates s' = updates s /\
  label_energy s' = AvgTotalEnergy nan /\
  render (label_energy s') = "Avg Total Energy = nan j"%string.
Proof.
  intros P I F H.
  apply simulate_published in H.
  destruct H as (m & k & x0 & omega0 & y & omega_d & T & frames' & G & ->).
  apply prelude_go in G.
  destruct G as (tmax' & b' & P' & _ & _ & _ & _ & _ & _ & _ & I').
  rewrite P' in P. cbn in P. injection P as ->.
  rewrite I in I'. injection I' as <-.
  unfold Py.range. replace (Z.to_nat frames) with O by lia.
  cbn [seq executed record fold_left updates data_dict label_energy].
  rewrite Nat.add_0_r. repeat split.
Qed.

End Solver.

(** ** The exported table *)

Section ExportedTable.

Context {RT : Runtime}.

Lemma row_at_publish c n i :
  aligned c n -> (i < n)%nat ->
  row_at (publish c) (keys (publish c)) i = Ok (row_of c i).
Proof.
  intros (A1 & A2 & A3 & A4 & A5 & A6 & A7) Hi.
  change (keys (publish c))
    with ["Time (s)"; "Position (m)"; "Velocity (m/s)"; "Acceleration (m/s²)";
          "Kinetic Energy (J)"; "Potential Energy (J)";
          "Total Energy (J)"]%string.
  cbn [row_at].
  change (lookup "Time (s)" (publish c)) with (Ok (times c)).
  change (lookup "Position (m)" (publish c)) with (Ok (positions c)).
  change (lookup "Velocity (m/s)" (publish c)) with (Ok (velocities c)).
  change (lookup "Acceleration (m/s²)" (publish c))
    with (Ok (accelerations c)).
  change (lookup "Kinetic Energy (J)" (publish c))
    with (Ok (kinetic_energy c)).
  change (lookup "Potential Energy (J)" (publish c))
    with (Ok (potential_energy c)).
  change (lookup "Total Energy (J)" (publish c)) with (Ok (total_energy c)).
  cbn [bind].
  rewrite (nth_error_nth' (times c) nan) by lia.
  rewrite (nth_error_nth' (positions c) nan) by lia.
  rewrite (nth_error_nth' (velocities c) nan) by lia.
  rewrite (nth_error_nth' (accelerations c) nan) by lia.
  rewrite (nth_error_nth' (kinetic_energy c) nan) by lia.
  rewrite (nth_error_nth' (potential_energy c) nan) by lia.
  rewrite (nth_error_nth' (total_energy c) nan) by lia.
  reflexivity.
Qed.

Lemma write_rows_publish c n idx acc :
  aligned c n -> (forall i, In i idx -> (i < n)%nat) ->
  write_rows (publish c) (keys (publish c)) idx acc
  = Written (acc ++ map (row_of c) idx) None.
Proof.
  intros A. revert acc. induction idx as [|i rest IH]; intros acc H.
  - cbn. now rewrite app_nil_r.
  - cbn [write_rows]. rewrite (row_at_publish A) by (apply H; now left).
    rewrite IH by (intros j Hj; apply H; now right).
    cbn [map]. now rewrite <- app_assoc.
Qed.


End ExportedTable.

(** ** The properties on the example runs *)

Section OnExamples.

Import Examples.

Local Open Scope string_scope.

Lemma libm_exp_zero z : is_zero z = true -> Libm.exp_series z = 1%float.
Proof. intros H. destruct (IEEE.zero_cases H) as [-> | ->]; reflexivity. Qed.

Lemma libm_cos_zero z : is_zero z = true -> Libm.cos_series z = 1%float.
Proof. intros H. destruct (IEEE.zero_cases H) as [-> | ->]; reflexivity. Qed.

Lemma libm_sin_zero z :
  is_zero z = true -> is_zero (Libm.sin_series z) = true.
Proof. intros H. destruct (IEEE.zero_cases H) as [-> | ->]; reflexivity. Qed.

(** Scenario C of the specification: a duration of zero seconds. *)
Lemma empty_run_shows_nan_witness :
  data_dict (snd (run no_duration never initial)) = Some (publish no_columns) /\
  updates (snd (run no_duration never initial)) = updates initial /\
  label_energy (snd (run no_duration never initial)) = AvgTotalEnergy nan /\
  render (label_energy (snd (run no_duration never initial)))
  = "Avg Total Energy = nan j".
Proof.
  apply (@empty_run_shows_nan Libm.runtime no_duration never initial
           (snd (run no_duration never initial)) 0%float 0%Z).
  - vm_compute. reflexivity.
  - vm_compute. reflexivity.
  - lia.
  - vm_compute. reflexivity.
Defined.

(** The claim C2 fails on the brief run: its three ticks are executed
    without a click, and [running] is still true when it has ended. *)
Lemma completed_run_leaves_running_set :
  fst (run brief never initial) = Published /\
  Py.int (0x1.999999999999ap-5 * fps)%float = Ok 3%Z /\
  updates (snd (run brief never initial)) = 3%nat /\
  running (snd (run brief never initial)) <> false.
Proof.
  split; [vm_compute; reflexivity|].
  split; [vm_compute; reflexivity|].
  split; [vm_compute; reflexivity|].
  vm_compute. discriminate.
Qed.

(** Scenario D of the specification: a mass that is not a number. *)
Lemma invalid_input_rejected_witness :
  exists s',
    run not_a_number never after_brief = (RejectedInvalid, s') /\
    label_result s' = EnterValidNumbers /\
    data_dict s' = data_dict after_brief /\
    updates s' = updates after_brief /\
    running s' = true.
Proof.
  destruct (@invalid_input_rejected Libm.runtime not_a_number never after_brief)
    as (s' & H & L & D & _ & U & R).
  - left. vm_compute. reflexivity.
  - exists s'. auto.
Defined.

(** The claim C3 fails on the fresh window: the rejected request has changed
    the flag. *)
Lemma invalid_input_sets_running :
  fst (run not_a_number never initial) = RejectedInvalid /\
  running initial = false /\
  running (snd (run not_a_number never initial)) <> running initial.
Proof.
  split; [vm_compute; reflexivity|]. split; [reflexivity|].
  vm_compute. discriminate.
Qed.

(** Scenario B of the specification: [gamma = 5 >= omega0 = 1]. *)
Lemma overdamped_rejected_witness :
  exists s',
    run overdamped never after_brief = (RejectedOverdamped, s') /\
    label_result s' = OverdampedCritical /\
    updates s' = updates after_brief /\
    data_dict s' = data_dict after_brief.
Proof.
  destruct (@overdamped_rejected Libm.runtime overdamped never after_brief
              1 1 1 10 10)%float
    as (_ & R); try (vm_compute; reflexivity).
  destruct R as (s' & H & L & _ & _ & U & D); [vm_compute; reflexivity|].
  exists s'. auto.
Defined.

Lemma rejected_run_keeps_dataset_witness :
  data_dict (snd (run overdamped never after_brief)) = data_dict after_brief /\
  plot_data (snd (run overdamped never after_brief)) = plot_data after_brief /\
  forall file_path,
    save_data file_path (snd (run overdamped never after_brief))
    = save_data file_path after_brief.
Proof.
  apply (@rejected_run_keeps_dataset Libm.runtime overdamped never after_brief
           RejectedOverdamped).
  - vm_compute. reflexivity.
  - now right.
Defined.

Lemma columns_same_length_witness :
  exists ts xs vs accs kes pes tes,
    data_dict after_brief =
      Some [ ("Time (s)", ts); ("Position (m)", xs); ("Velocity (m/s)", vs);
             ("Acceleration (m/s²)", accs); ("Kinetic Energy (J)", kes);
             ("Potential Energy (J)", pes); ("Total Energy (J)", tes) ] /\
    List.length ts = 3%nat /\
    List.length tes = 3%nat.
Proof.
  destruct (@columns_same_length Libm.runtime brief never initial after_brief)
    as (n & ts & xs & vs & accs & kes & pes & tes
        & D & U & L1 & _ & _ & _ & _ & _ & L7).
  - vm_compute. reflexivity.
  - exists ts, xs, vs, accs, kes, pes, tes.
    assert (N : n = 3%nat) by (vm_compute in U; lia).
    rewrite N in L1, L7. repeat split; assumption.
Defined.

(** Stop clicked during the second of the three ticks of the brief run. *)
Lemma stop_takes_effect_after_the_tick_witness :
  exists s' c,
    run brief (click_at 1) initial = (Published, s') /\
    data_dict s' = Some (publish c) /\
    running s' = false /\
    updates s' = 2%nat /\
    times c = firstn 2 (times brief_columns).
Proof.
  destruct (@stop_takes_effect_after_the_tick Libm.runtime brief (click_at 1)
              initial after_brief brief_columns 3 1)
    as (s' & c & H & D & R & U & _ & T & _).
  - vm_compute. reflexivity.
  - vm_compute. reflexivity.
  - vm_compute. reflexivity.
  - lia.
  - reflexivity.
  - intros [|i] Hi; [reflexivity | lia].
  - exists s', c. auto.
Defined.

(** Scenario A of the specification, cut to three ticks: the first sample
    is [x = 1], [v = -0.05]. *)
Lemma samples_follow_closed_form_witness :
  exists ts xs vs accs kes pes tes,
    data_dict after_brief =
      Some [ ("Time (s)", ts); ("Position (m)", xs); ("Velocity (m/s)", vs);
             ("Acceleration (m/s²)", accs); ("Kinetic Energy (J)", kes);
             ("Potential Energy (J)", pes); ("Total Energy (J)", tes) ] /\
    nth 0 ts nan = 0%float /\
    nth 0 xs nan = 1%float /\
    nth 0 vs nan = (- (1) * (0x1.999999999999ap-4 / (2 * 1)))%float.
Proof.
  destruct (@samples_follow_closed_form Libm.runtime brief never initial
              after_brief 1 10 1 0x1.999999999999ap-5 0x1.999999999999ap-4)%float
    as (ts & xs & vs & accs & kes & pes & tes & D & _ & F).
  - vm_compute. reflexivity.
  - vm_compute. reflexivity.
  - exists ts, xs, vs, accs, kes, pes, tes. split; [exact D|]. apply F.
    + exact libm_exp_zero.
    + exact libm_cos_zero.
    + exact libm_sin_zero.
    + vm_compute. reflexivity.
    + vm_compute. reflexivity.
    + intros N. apply (f_equal is_zero) in N. vm_compute in N. discriminate.
    + assert (D' : data_dict after_brief = Some (publish brief_columns))
        by (vm_compute; reflexivity).
      rewrite D' in D. unfold publish in D.
      assert (Tm : times brief_columns = ts) by congruence.
      rewrite <- Tm. vm_compute. lia.
Defined.

(** The brief run: three ticks, at [0], [dt] and [2*dt]. *)
Lemma time_axis_witness :
  exists c,
    data_dict after_brief = Some (publish c) /\
    Py.int (0x1.999999999999ap-5 * 60)%float = Ok 3%Z /\
    List.length (times c) = 3%nat /\
    (forall i, (i < 3)%nat ->
       nth i (times c) nan = (Py.float_of_int (Z.of_nat i) * dt)%float) /\
    (forall i, (S i < 3)%nat ->
       (nth i (times c) nan <? nth (S i) (times c) nan)%float = true).
Proof.
  destruct (@time_axis Libm.runtime brief never initial after_brief)
    as (c & tmax & frames & D & P & I & _ & Hn & _ & Hall & Hinc).
  - vm_compute. reflexivity.
  - assert (T : tmax = 0x1.999999999999ap-5%float)
      by (vm_compute in P; congruence).
    subst tmax.
    assert (F : frames = 3%Z) by (vm_compute in I; congruence).
    subst frames.
    assert (L : List.length (times c) = 3%nat)
      by (rewrite Hall by reflexivity; reflexivity).
    rewrite L in Hn, Hinc.
    exists c. split; [exact D|]. split; [exact I|]. split; [exact L|].
    split; [exact Hn|]. apply Hinc.
    vm_compute. discriminate.
Defined.

Lemma geological_prelude :
  match prelude_of (RT := Libm.runtime) geological with
  | Go _ _ _ _ _ _ _ frames => frames = 60000000000000000%Z
  | Halt _ _ => False
  end.
Proof. vm_compute. reflexivity. Qed.

Lemma late_tick_collapses :
  (tick_time late_tick <? tick_time (S late_tick))%float = false.
Proof.
  unfold tick_time. rewrite Nat2Z.inj_succ. unfold late_tick.
  rewrite Z2Nat.id by lia. vm_compute. reflexivity.
Qed.

(** The claim C6 fails in two places.  A negative duration gives a negative
    frame count, [-60] for one second, which the published length, [0],
    does not equal.  And in a run of more than [2^53] ticks, here [6 * 10^16]
    of them, tick [2^53 + 1] has the time of tick [2^53]: the index is
    rounded when it is converted. *)
Lemma time_axis_counterexample :
  (exists s' c,
     run negative_duration never initial = (Published, s') /\
     data_dict s' = Some (publish c) /\
     Py.int (-1 * 60)%float = Ok (-60)%Z /\
     Z.of_nat (List.length (times c)) <> (-60)%Z) /\
  (exists s' c,
     run geological never initial = (Published, s') /\
     data_dict s' = Some (publish c) /\
     (S late_tick < List.length (times c))%nat /\
     (nth late_tick (times c) nan <? nth (S late_tick) (times c) nan)%float
     = false).
Proof.
  split.
  - exists (snd (run negative_duration never initial)), no_columns.
    split; [vm_compute; reflexivity|]. split; [vm_compute; reflexivity|].
    split; [vm_compute; reflexivity|]. cbn. lia.
  - unfold run. rewrite simulate_prelude.
    pose proof geological_prelude as G.
    destruct (prelude_of geological)
      as [o l|m k x0 omega0 y omega_d T frames]; [contradiction|].
    subst frames. cbv zeta.
    assert (N : executed never (Py.range 60000000000000000) true
                = Z.to_nat 60000000000000000).
    { unfold Py.range. apply executed_all. reflexivity. }
    rewrite N.
    eexists. eexists. split; [reflexivity|].
    cbn [data_dict]. split; [reflexivity|].
    project_columns. rewrite length_map, length_seq.
    assert (B : (S late_tick < Z.to_nat 60000000000000000)%nat)
      by (unfold late_tick; lia).
    split; [exact B|].
    rewrite !nth_map_seq by lia. exact late_tick_collapses.
Qed.


End OnExamples.

(** * Further properties of the callbacks *)

(** ** Outcomes of [simulate] *)

Section Outcomes.

Context {RT : Runtime}.

(** a run that does not publish stops in its prelude *)
Lemma simulate_unpublished E stop_clicked s o s' :
  simulate E stop_clicked s = (o, s') ->
  o <> Published ->
  exists l,
    prelude_of E = Halt o l /\
    s' = match l with
         | None => set_running true s
         | Some t => set_label_result t (set_running true s)
         end.
Proof.
  rewrite simulate_prelude.
  destruct (prelude_of E) as [o' [t|]|m k x0 omega0 y omega_d T frames].
  - intros H _. injection H as <- <-. eauto.
  - intros H _. injection H as <- <-. eauto.
  - cbv zeta. intros H N. injection H as <- _. contradiction.
Qed.

Lemma prelude_halt E o l : prelude_of E = Halt o l -> o <> Published.
Proof.
  unfold prelude_of.
  destruct (parse E) as [[m k x0 tmax b]|]; [|intros H; injection H as <- _; discriminate].
  destruct (Py.div k m) as [km|e]; [|intros H; injection H as <- _; discriminate].
  destruct (Py.div b (2 * m)) as [y|e]; [|intros H; injection H as <- _; discriminate].
  destruct (np_sqrt km <=? y)%float; [intros H; injection H as <- _; discriminate|].
  destruct (py_pow2 y) as [y2|e]; [|intros H; injection H as <- _; discriminate].
  destruct (Py.int (tmax * fps)) as [frames|e]; [discriminate|].
  intros H; injection H as <- _; discriminate.
Qed.

Lemma prelude_raises E e l :
  prelude_of E = Halt (Uncaught e) l ->
  e = ZeroDivisionError \/ e = OverflowError \/ e = ValueError.
Proof.
  unfold prelude_of.
  destruct (parse E) as [[m k x0 tmax b]|]; [|discriminate].
  unfold Py.div.
  destruct (is_zero m); [intros H; injection H as <- _; auto|].
  destruct (is_zero (2 * m)); [intros H; injection H as <- _; auto|].
  destruct (np_sqrt (k / m) <=? b / (2 * m))%float; [discriminate|].
  unfold py_pow2.
  destruct (is_finite (b / (2 * m)) && is_infinity (libm_pow (b / (2 * m)) 2));
    [intros H; injection H as <- _; auto|].
  unfold Py.int.
  destruct (Prim2SF (tmax * fps)); intros H; try discriminate;
    injection H as <- _; auto.
Qed.

(** X1: Only a published run writes the dataset or the energy label, or
    executes a tick: after any other outcome [data_dict] and the energy
    label are as before, [canvas.update()] has not been called, and
    [running] is true. *)
Theorem only_published_runs_write_data E stop_clicked s o s' :
  simulate E stop_clicked s = (o, s') ->
  o <> Published ->
  data_dict s' = data_dict s /\
  label_energy s' = label_energy s /\
  updates s' = updates s /\
  running s' = true.
Proof.
  intros H N. destruct (simulate_unpublished _ _ _ H N) as (l & _ & ->).
  destruct l; cbn; auto.
Qed.

(** X2: The exceptions that leave [simulate] are [ZeroDivisionError],
    [OverflowError] and [ValueError], never a [KeyError] or an
    [IndexError]; they leave it before the first tick. *)
Theorem simulate_raises_arithmetic_errors_only E stop_clicked s e s' :
  simulate E stop_clicked s = (Uncaught e, s') ->
  (e = ZeroDivisionError \/ e = OverflowError \/ e = ValueError) /\
  updates s' = updates s.
Proof.
  intros H.
  destruct (@simulate_unpublished E stop_clicked s (Uncaught e) s' H)
    as (l & P & ->); [discriminate|].
  split; [exact (prelude_raises _ P)|]. destruct l; reflexivity.
Qed.

(** X3: A mass of zero, of either sign, makes [k/m] raise [ZeroDivisionError]:
    the callback ends there, having written [running] only. *)
Theorem zero_mass_raises E stop_clicked s m k x0 tmax b :
  parse E = Some (Params m k x0 tmax b) ->
  is_zero m = true ->
  simulate E stop_clicked s = (Uncaught ZeroDivisionError, set_running true s).
Proof.
  intros P Z. unfold simulate, Py.div. rewrite P, Z. reflexivity.
Qed.

(** X4: When the parameters pass the damping gate but [tmax * 60] is NaN or
    infinite, [int] raises after the result label has been configured: the
    label shows the frequencies of a run that never starts. *)
Theorem endless_duration_raises E stop_clicked s m k x0 tmax b :
  parse E = Some (Params m k x0 tmax b) ->
  is_zero m = false ->
  is_zero (2 * m) = false ->
  (np_sqrt (k / m) <=? b / (2 * m))%float = false ->
  (is_finite (b / (2 * m)) && is_infinity (libm_pow (b / (2 * m)) 2)) = false ->
  is_finite (tmax * fps) = false ->
  let gamma := (b / (2 * m))%float in
  let omega0 := np_sqrt (k / m) in
  let omega_d := np_sqrt (np_pow2 omega0 - np_pow2 gamma) in
  exists e,
    simulate E stop_clicked s =
      (Uncaught e,
       set_label_result
         (Parameters omega0 gamma omega_d (2 * Py.pi / omega_d))
         (set_running true s)) /\
    e = (if is_nan (tmax * fps) then ValueError else OverflowError).
Proof.
  intros P Zm Z2 G O F. cbv zeta.
  unfold simulate, Py.div, py_pow2. rewrite P, Zm, Z2, G, O.
  rewrite IEEE.is_finite_spec in F. unfold Py.int, is_nan.
  rewrite eqb_spec.
  destruct (Prim2SF (tmax * fps)) as [sg|sg| |sg mt et]; try discriminate.
  - eexists. split; [reflexivity|]. destruct sg; reflexivity.
  - eexists. split; reflexivity.
Qed.

(** X5: A negative [k/m] is not rejected: its square root is NaN, which no
    damping factor is at least, so the run goes on past the gate, and a
    published run reports the natural frequency [nan]. *)
Theorem negative_ratio_passes_the_gate E stop_clicked s m k x0 tmax b :
  parse E = Some (Params m k x0 tmax b) ->
  (k / m <? 0)%float = true ->
  fst (simulate E stop_clicked s) <> RejectedOverdamped /\
  (forall s', simulate E stop_clicked s = (Published, s') ->
     exists gamma omega_d T,
       label_result s' = Parameters nan gamma omega_d T).
Proof.
  intros P N.
  assert (S : np_sqrt (k / m) = nan).
  { unfold np_sqrt. apply Prim2SF_inj. rewrite sqrt_spec.
    rewrite ltb_spec in N. change (Prim2SF 0) with (S754_zero false) in N.
    destruct (Prim2SF (k / m)) as [sg|sg| |sg mt et]; cbn in N;
      try discriminate; destruct sg; try discriminate; reflexivity. }
  assert (L : forall y, (nan <=? y)%float = false).
  { intros y. rewrite leb_spec. reflexivity. }
  split.
  - unfold simulate. rewrite P.
    destruct (Py.div k m) as [km|e] eqn:D1; [|cbn; discriminate].
    assert (km = (k / m)%float).
    { unfold Py.div in D1. destruct (is_zero m); congruence. }
    subst km. rewrite S.
    destruct (Py.div b (2 * m)) as [y|e]; [|cbn; discriminate].
    rewrite L.
    destruct (py_pow2 y); [|cbn; discriminate].
    destruct (Py.int (tmax * fps)); [|cbn; discriminate].
    destruct (loop _ _ _ _ _ _ _ _ _ _). cbn. discriminate.
  - intros s' H. apply simulate_published in H.
    destruct H as (m' & k' & x0' & omega0 & y & omega_d & T & frames & G & ->).
    apply prelude_go in G.
    destruct G as (tmax' & b' & P' & _ & _ & -> & _).
    rewrite P in P'. injection P' as <- <- <- <- <-.
    rewrite S. cbn. eauto.
Qed.

(** X6: A run forgets the state it starts from: the outcome is the same from
    any two states, and a published run leaves the same flag, dataset and
    labels, nothing of an earlier run being kept or appended to. *)
Theorem run_forgets_previous_state E stop_clicked s1 s2 :
  fst (simulate E stop_clicked s1) = fst (simulate E stop_clicked s2) /\
  (fst (simulate E stop_clicked s1) = Published ->
   running (snd (simulate E stop_clicked s1))
   = running (snd (simulate E stop_clicked s2)) /\
   data_dict (snd (simulate E stop_clicked s1))
   = data_dict (snd (simulate E stop_clicked s2)) /\
   label_result (snd (simulate E stop_clicked s1))
   = label_result (snd (simulate E stop_clicked s2)) /\
   label_energy (snd (simulate E stop_clicked s1))
   = label_energy (snd (simulate E stop_clicked s2))).
Proof.
  rewrite !simulate_prelude.
  destruct (prelude_of E) as [o l|m k x0 omega0 y omega_d T frames] eqn:P.
  - apply prelude_halt in P. destruct l; cbn; split; auto; contradiction.
  - cbn. auto.
Qed.

End Outcomes.

(** ** Clicks on Stop during a run *)

Section Clicks.

Context {RT : Runtime}.

(** the loop sees a schedule up to its first click only *)
Lemma loop_agrees c1 c2 j n a :
  (forall i, (i <= j)%nat -> c1 i = c2 i) -> c1 j = true -> (a <= j)%nat ->
  executed c1 (seq a n) true = executed c2 (seq a n) true /\
  flag_after c1 (seq a n) true = flag_after c2 (seq a n) true.
Proof.
  intros A C. revert a. induction n as [|n IH]; intros a Ha; cbn.
  - auto.
  - rewrite <- (A a Ha). destruct (c1 a) eqn:Ca; cbn [negb].
    + destruct n; cbn; auto.
    + assert (a <> j) by congruence.
      destruct (IH (S a)) as [E F]; [lia|]. rewrite E, F. auto.
Qed.

(** X7: Clicks on Stop after the first one of a run are not seen: two
    schedules that agree up to a click of the first give the same run. *)
Theorem clicks_after_the_first_are_not_seen E c1 c2 s j :
  (forall i, (i <= j)%nat -> c1 i = c2 i) ->
  c1 j = true ->
  simulate E c1 s = simulate E c2 s.
Proof.
  intros A C. rewrite !simulate_prelude.
  destruct (prelude_of E) as [o l|m k x0 omega0 y omega_d T frames];
    [reflexivity|].
  cbv zeta. unfold Py.range.
  destruct (@loop_agrees c1 c2 j (Z.to_nat frames) 0 A C) as [-> ->];
    [lia | reflexivity].
Qed.

(** X8: A click on Stop during the last tick of a run loses nothing: the
    dataset and the labels are those of the uninterrupted run, and only
    [running] tells the two apart. *)
Theorem stop_during_the_last_tick_keeps_all_samples E stop_clicked s s0 n :
  simulate E (fun _ => false) s = (Published, s0) ->
  updates s0 = (updates s + S n)%nat ->
  stop_clicked n = true ->
  (forall i, (i < n)%nat -> stop_clicked i = false) ->
  exists s',
    simulate E stop_clicked s = (Published, s') /\
    data_dict s' = data_dict s0 /\
    label_result s' = label_result s0 /\
    label_energy s' = label_energy s0 /\
    updates s' = updates s0 /\
    running s' = false /\
    running s0 = true.
Proof.
  intros H0 U0 Hc Hb.
  apply simulate_published in H0.
  destruct H0 as (m & k & x0 & omega0 & y & omega_d & T & frames & P & ->).
  cbv zeta in U0. cbn [updates] in U0.
  assert (F : executed (fun _ => false) (Py.range frames) true
              = Z.to_nat frames).
  { unfold Py.range. apply executed_all. reflexivity. }
  rewrite F in U0.
  destruct (@executed_first_click stop_clicked 0 (Z.to_nat frames) n)
    as [Ex Fl]; [lia | exact Hc | intros; apply Hb; lia |].
  rewrite simulate_prelude, P. cbv zeta. rewrite F. unfold Py.range.
  rewrite Ex, Fl. replace (Z.to_nat frames) with (S n) by lia.
  eexists. split; [reflexivity|]. cbn.
  rewrite flag_after_no_click by reflexivity. repeat split.
Qed.

(** X9: No click can empty a run: with a frame count of one or more, the
    sample of tick 0, at time zero, is recorded whatever the schedule. *)
Theorem first_tick_is_always_recorded E stop_clicked s s' tmax frames :
  option_map p_tmax (parse E) = Some tmax ->
  Py.int (tmax * fps)%float = Ok frames ->
  1 <= frames ->
  simulate E stop_clicked s = (Published, s') ->
  exists c,
    data_dict s' = Some (publish c) /\
    (1 <= List.length (times c))%nat /\
    nth 0 (times c) nan = 0%float.
Proof.
  intros P I F H.
  apply simulate_published in H.
  destruct H as (m & k & x0 & omega0 & y & omega_d & T & frames' & G & ->).
  apply prelude_go in G.
  destruct G as (tmax' & b' & P' & _ & _ & _ & _ & _ & _ & _ & I').
  rewrite P' in P. cbn in P. injection P as ->.
  rewrite I in I'. injection I' as <-.
  cbv zeta. eexists. split; [reflexivity|].
  unfold Py.range. destruct (Z.to_nat frames) as [|n] eqn:N; [lia|].
  cbn [seq executed]. project_columns. cbn [seq map List.length nth].
  split; [lia | reflexivity].
Qed.

End Clicks.

(** ** Plotting and saving *)

Section Consumers.

Context {RT : Runtime}.

Lemma plot_publish c n (s : state) :
  data_dict s = Some (publish c) -> aligned c n ->
  plot_data s = Some (Ok (figure_of c)).
Proof.
  intros D (A1 & A2 & A3 & A4 & A5 & A6 & A7).
  unfold plot_data. rewrite D. cbn [falsy publish].
  change ([("Time (s)"%string, times c); ("Position (m)"%string, positions c);
           ("Velocity (m/s)"%string, velocities c);
           ("Acceleration (m/s²)"%string, accelerations c);
           ("Kinetic Energy (J)"%string, kinetic_energy c);
           ("Potential Energy (J)"%string, potential_energy c);
           ("Total Energy (J)"%string, total_energy c)]) with (publish c).
  unfold plot.
  change (lookup "Time (s)" (publish c)) with (Ok (times c)).
  change (lookup "Position (m)" (publish c)) with (Ok (positions c)).
  change (lookup "Velocity (m/s)" (publish c)) with (Ok (velocities c)).
  change (lookup "Acceleration (m/s²)" (publish c))
    with (Ok (accelerations c)).
  change (lookup "Kinetic Energy (J)" (publish c))
    with (Ok (kinetic_energy c)).
  change (lookup "Potential Energy (J)" (publish c))
    with (Ok (potential_energy c)).
  change (lookup "Total Energy (J)" (publish c)) with (Ok (total_energy c)).
  cbn [bind]. rewrite A1, A2, A3, A4, A5, A6, A7, Nat.eqb_refl.
  reflexivity.
Qed.

Lemma save_publish c n (s : state) file_path :
  data_dict s = Some (publish c) -> aligned c n ->
  save_data file_path s =
  if String.eqb file_path "" then None else Some (table_of c n).
Proof.
  intros D A. unfold save_data. rewrite D. cbn [falsy publish].
  destruct (String.eqb file_path ""); [reflexivity|].
  change ([("Time (s)"%string, times c); ("Position (m)"%string, positions c);
           ("Velocity (m/s)"%string, velocities c);
           ("Acceleration (m/s²)"%string, accelerations c);
           ("Kinetic Energy (J)"%string, kinetic_energy c);
           ("Potential Energy (J)"%string, potential_energy c);
           ("Total Energy (J)"%string, total_energy c)]) with (publish c).
  change (lookup "Time (s)" (publish c)) with (Ok (times c)).
  unfold Py.range. rewrite Nat2Z.id.
  assert (L : List.length (times c) = n) by apply A. rewrite L.
  rewrite (@write_rows_publish c n); [reflexivity | exact A |].
  intros i Hi. apply in_seq in Hi. lia.
Qed.

(** X10: After a published run the figure has two plots of three curves each,
    position, velocity and acceleration, then kinetic, potential and total
    energy; every curve is drawn against the time column and has one point
    per sample. *)
Theorem plot_after_a_run E stop_clicked s s' :
  simulate E stop_clicked s = (Published, s') ->
  exists c,
    data_dict s' = Some (publish c) /\
    plot_data s' = Some (Ok (figure_of c)) /\
    forall p cv, In p (figure_of c) -> In cv (curves p) ->
      c_x cv = times c /\ List.length (c_y cv) = List.length (c_x cv).
Proof.
  intros H. apply published_times in H.
  destruct H as (c & tmax & frames & n & D & _ & _ & _ & A & _).
  exists c. split; [exact D|]. split; [exact (plot_publish _ D A)|].
  destruct A as (A1 & A2 & A3 & A4 & A5 & A6 & A7).
  intros p cv Hp Hc. cbn in Hp.
  destruct Hp as [<-|[<-|[]]]; cbn in Hc;
    destruct Hc as [<-|[<-|[<-|[]]]]; cbn; split; congruence.
Qed.

Lemma nth_ext_nan (l1 l2 : list float) :
  List.length l1 = List.length l2 ->
  (forall i, (i < List.length l1)%nat -> nth i l1 nan = nth i l2 nan) ->
  l1 = l2.
Proof. intros L H. apply (nth_ext l1 l2 nan nan L H). Qed.

Lemma rows_determine_columns c1 c2 n1 n2 :
  aligned c1 n1 -> aligned c2 n2 ->
  map (row_of c1) (seq 0 n1) = map (row_of c2) (seq 0 n2) ->
  c1 = c2.
Proof.
  intros A1 A2 E.
  assert (N : n1 = n2).
  { apply (f_equal (@List.length row)) in E.
    now rewrite !length_map, !length_seq in E. }
  subst n2.
  assert (R : forall i, (i < n1)%nat -> row_of c1 i = row_of c2 i).
  { intros i Hi.
    pose proof (f_equal (fun l => nth i l []) E) as Ei. cbv beta in Ei.
    now rewrite !nth_map_seq in Ei by exact Hi. }
  destruct A1 as (a1 & a2 & a3 & a4 & a5 & a6 & a7).
  destruct A2 as (b1 & b2 & b3 & b4 & b5 & b6 & b7).
  destruct c1, c2;
    cbn [times positions velocities accelerations kinetic_energy
         potential_energy total_energy] in *.
  unfold row_of in R;
    cbn [times positions velocities accelerations kinetic_energy
         potential_energy total_energy] in R.
  f_equal; apply nth_ext_nan; try congruence; intros i Hi;
    specialize (R i ltac:(congruence)); congruence.
Qed.

(** X11: The exported table loses nothing: two published runs that save the
    same table, under a file name, have published the same dataset. *)
Theorem export_determines_the_dataset
    E1 c1 s1 s1' E2 c2 s2 s2' file_path :
  simulate E1 c1 s1 = (Published, s1') ->
  simulate E2 c2 s2 = (Published, s2') ->
  file_path <> ""%string ->
  save_data file_path s1' = save_data file_path s2' ->
  data_dict s1' = data_dict s2'.
Proof.
  intros H1 H2 Hp S.
  apply published_times in H1.
  destruct H1 as (d1 & _ & _ & n1 & D1 & _ & _ & _ & A1 & _).
  apply published_times in H2.
  destruct H2 as (d2 & _ & _ & n2 & D2 & _ & _ & _ & A2 & _).
  rewrite (@save_publish d1 n1 s1' file_path D1 A1),
    (@save_publish d2 n2 s2' file_path D2 A2) in S.
  apply String.eqb_neq in Hp. rewrite Hp in S.
  unfold table_of in S. injection S as S.
  rewrite D1, D2. f_equal. f_equal.
  exact (rows_determine_columns A1 A2 S).
Qed.

(** ** Sessions *)

Lemma unpublished_keeps_dataset E c s o s' :
  simulate E c s = (o, s') -> o <> Published -> data_dict s' = data_dict s.
Proof.
  intros H N. destruct (simulate_unpublished _ _ _ H N) as (l & _ & ->).
  destruct l; reflexivity.
Qed.

Lemma click_well_formed a s :
  well_formed (data_dict s) -> well_formed (data_dict (click a s)).
Proof.
  intros W. destruct a as [E c| | |p]; cbn [click]; try exact W.
  destruct (simulate E c s) as [o s'] eqn:H. cbn [snd].
  assert (O : o = Published \/ o <> Published)
    by (destruct o; (now left) || (right; discriminate)).
  destruct O as [->|N].
  - apply published_times in H.
    destruct H as (d & _ & _ & n & D & _ & _ & _ & A & Tm).
    right. exists d, n. auto.
  - rewrite (unpublished_keeps_dataset _ _ _ H N). exact W.
Qed.

Lemma session_well_formed s l :
  well_formed (data_dict s) -> well_formed (data_dict (session_from s l)).
Proof.
  revert s. induction l as [|a l IH]; intros s W; cbn.
  - exact W.
  - apply IH, click_well_formed, W.
Qed.

(** X12: Whatever was clicked since the window opened, Plot and Save do not
    fail: each does nothing, as long as no run has published, or draws the
    figure, respectively writes the whole table, of a dataset whose seven
    columns have one length and whose times are those of the ticks. *)
Theorem plot_and_save_never_fail (l : list action) (file_path : string) :
  (plot_data (session l) = None /\ save_data file_path (session l) = None) \/
  exists c n,
    data_dict (session l) = Some (publish c) /\
    aligned c n /\
    times c = map tick_time (seq 0 n) /\
    plot_data (session l) = Some (Ok (figure_of c)) /\
    save_data file_path (session l) =
      (if String.eqb file_path "" then None else Some (table_of c n)).
Proof.
  destruct (@session_well_formed initial l) as [N|(c & n & D & A & Tm)].
  - left. reflexivity.
  - left. unfold plot_data, save_data. fold (session l) in N.
    rewrite N. auto.
  - right. fold (session l) in D. exists c, n.
    split; [exact D|]. split; [exact A|]. split; [exact Tm|].
    split; [exact (@plot_publish c n _ D A) | exact (@save_publish c n _ file_path D A)].
Qed.

Lemma click_same_but_running a s1 s2 :
  same_but_running s1 s2 -> same_but_running (click a s1) (click a s2).
Proof.
  intros (D & R & L & U). destruct a as [E c| | |p]; cbn [click].
  - assert (S : set_running true s1 = set_running true s2).
    { unfold set_running. now rewrite D, R, L, U. }
    assert (X : simulate E c s1 = simulate E c s2).
    { rewrite !simulate_prelude.
      destruct (prelude_of E) as [o [t|]|m k x0 omega0 y omega_d T frames].
      - now rewrite S.
      - now rewrite S.
      - cbv zeta. now rewrite U. }
    rewrite X. repeat split.
  - repeat split; assumption.
  - repeat split; assumption.
  - repeat split; assumption.
Qed.

Lemma idle_click_same_but_running a s :
  is_start a = false -> same_but_running (click a s) s.
Proof. destruct a; try discriminate; intros _; repeat split. Qed.

Lemma sessions_same_but_running l s1 s2 :
  same_but_running s1 s2 ->
  same_but_running (session_from s1 l) (session_from s2 (filter is_start l)).
Proof.
  revert s1 s2. induction l as [|a l IH]; intros s1 s2 S; cbn.
  - exact S.
  - destruct (is_start a) eqn:A; cbn.
    + apply IH, click_same_but_running, S.
    + apply IH. destruct (@idle_click_same_but_running a s1 A) as (D & R & L & U).
      destruct S as (D' & R' & L' & U'). repeat split; congruence.
Qed.

(** X13: The clicks on Stop, Plot and Save between the runs change nothing that
    is shown or saved: without them the session ends with the same dataset
    and the same labels, after as many ticks. *)
Theorem idle_clicks_do_not_matter (l : list action) :
  data_dict (session l) = data_dict (session (filter is_start l)) /\
  label_result (session l) = label_result (session (filter is_start l)) /\
  label_energy (session l) = label_energy (session (filter is_start l)) /\
  updates (session l) = updates (session (filter is_start l)).
Proof.
  apply (@sessions_same_but_running l initial initial). repeat split.
Qed.

End Consumers.

(** ** The accuracy of the recorded times *)

(** the time of tick [p], for [p] below [2^53], against the product of [p]
    and [dt]: on the scale of [2^-110] the unit in the last place of the
    result [Q * 2^e] is [2^(e+110)], and the two differ by half of it at
    most *)
Lemma tick_value_half_ulp (p : positive) :
  Zpos p < 2 ^ 53 ->
  exists Q e,
    Prim2SF (Py.float_of_int (Zpos p) * dt) = S754_finite false Q e /\
    2 ^ 52 <= Zpos Q < 2 ^ 53 /\
    -110 <= e /\
    - 2 ^ (e + 110)
    <= 2 * (Zpos p * dt_mantissa * 2 ^ 52 - Zpos Q * 2 ^ (e + 110))
    <= 2 ^ (e + 110).
Proof.
  intros Hp.
  pose proof (IEEE.digits2_pos_bounds p) as [PL PU].
  set (d := Zpos (digits2_pos p)) in *.
  assert (Hd : d <= 53).
  { assert (d - 1 < 53) by (apply (Z.pow_lt_mono_r_iff 2); lia). lia. }
  assert (Hd1 : 1 <= d) by (unfold d; lia).
  destruct (@IEEE.float_of_pos p Hd) as (mz & E & V & Dz). fold d in E, V.
  pose proof (IEEE.digits2_pos_bounds mz) as [ML MU]. rewrite Dz in ML, MU.
  rewrite mul_spec, E, IEEE.Prim2SF_dt. unfold SF64mul, SFmul. cbn [xorb].
  set (P := (mz * 4803839602528529)%positive).
  assert (VP : Zpos P = Zpos mz * dt_mantissa) by reflexivity.
  pose proof (IEEE.digits2_pos_bounds P) as [BL BU].
  set (dP := Zpos (digits2_pos P)) in *.
  change (2 ^ (53 - 1)) with 4503599627370496 in ML.
  change (2 ^ 53) with 9007199254740992 in MU.
  assert (PL' : 2 ^ 104 <= Zpos P)
    by (rewrite VP; unfold dt_mantissa;
        change (2 ^ 104) with 20282409603651670423947251286016; nia).
  assert (PU' : Zpos P < 2 ^ 106)
    by (rewrite VP; unfold dt_mantissa;
        change (2 ^ 106) with 81129638414606681695789005144064; nia).
  assert (DL : 104 < dP) by (apply (Z.pow_lt_mono_r_iff 2); lia).
  assert (DU : dP - 1 < 106) by (apply (Z.pow_lt_mono_r_iff 2); lia).
  destruct (@IEEE.round_long false P (d - 53 + -58))
    as (Q & e & R & QB & Le & Err); fold dP; try lia.
  fold dP in Le, Err.
  exists Q, e. split; [exact R|]. split; [exact QB|]. split; [lia|].
  (* the unit of the result is at least that of the rounding *)
  assert (GX : 2 ^ (dP - 53) <= 2 ^ (e - (d - 53 + -58)))
    by (apply Z.pow_le_mono_r; lia).
  set (A := 2 ^ (d - 1)) in *.
  set (G := 2 ^ (dP - 53)) in *.
  set (X := 2 ^ (e - (d - 53 + -58))) in *.
  assert (PA : 0 < A) by (apply Z.pow_pos_nonneg; lia).
  assert (XA : 2 ^ (e + 110) = X * A).
  { unfold X, A. rewrite <- Z.pow_add_r by lia. f_equal. lia. }
  rewrite XA. rewrite VP in *.
  set (M := Zpos mz) in *. set (N := Zpos p) in *. set (q := Zpos Q) in *.
  set (T := 2 ^ 52) in *.
  assert (S1 : 2 * (N * dt_mantissa * T - q * (X * A))
               = A * (2 * (M * dt_mantissa - X * q))).
  { replace (N * dt_mantissa * T) with ((N * T) * dt_mantissa) by ring.
    rewrite <- V. ring. }
  rewrite S1. replace (X * A) with (A * X) by ring.
  split.
  - replace (- (A * X)) with (A * - X) by ring.
    apply Z.mul_le_mono_nonneg_l; lia.
  - apply Z.mul_le_mono_nonneg_l; lia.
Qed.

(** X14: The time recorded at tick [i], for [0 < i < 2^53], is the product
    of [i] and [dt] rounded to nearest: a positive binary64 value [Q * 2^e]
    with a mantissa [Q] of 53 bits, at most half a unit in the last place,
    [2^e / 2], away from the product of [i] and [dt = dt_mantissa * 2^-58].
    The inequality is written on the scale of [2^-110]. *)
Theorem tick_time_accuracy (i : nat) :
  (0 < i)%nat -> Z.of_nat i < 2 ^ 53 ->
  Prim2SF dt = S754_finite false 4803839602528529 (-58) /\
  dt_mantissa = 4803839602528529 /\
  exists Q e,
    Prim2SF (tick_time i) = S754_finite false Q e /\
    2 ^ 52 <= Zpos Q < 2 ^ 53 /\
    -110 <= e /\
    2 * Z.abs (Z.of_nat i * dt_mantissa * 2 ^ 52 - Zpos Q * 2 ^ (e + 110))
    <= 2 ^ (e + 110).
Proof.
  intros Hi Hb. split; [exact IEEE.Prim2SF_dt|]. split; [reflexivity|].
  destruct i as [|i]; [lia|].
  assert (P : exists p, Z.of_nat (S i) = Zpos p)
    by (exists (Pos.of_succ_nat i); lia).
  destruct P as [p P]. unfold tick_time. rewrite P in *.
  destruct (@tick_value_half_ulp p Hb) as (Q & e & V & B & Le & Err).
  exists Q, e. split; [exact V|]. split; [exact B|]. split; [exact Le|].
  revert Err.
  generalize (Zpos p * dt_mantissa * 2 ^ 52 - Zpos Q * 2 ^ (e + 110)).
  generalize (2 ^ (e + 110)). intros u v Err. lia.
Qed.

(** ** The sign of the energies *)

Module Sign.

Lemma ltb_zero (x : float) : (x <? 0)%float = negb (SFnonneg (Prim2SF x)).
Proof.
  rewrite ltb_spec. change (Prim2SF 0) with (S754_zero false).
  destruct (Prim2SF x) as [sg|sg| |sg mt et]; try destruct sg; reflexivity.
Qed.

Lemma not_negative (x : float) :
  (x <? 0)%float = false <-> SFnonneg (Prim2SF x) = true.
Proof. rewrite ltb_zero. destruct (SFnonneg (Prim2SF x)); cbn; intuition. Qed.

Lemma round_aux_sign (mz ez : Z) (l : location) :
  SFnonneg (binary_round_aux prec emax false mz ez l) = true.
Proof.
  unfold binary_round_aux.
  destruct (shr_fexp prec emax mz ez l) as [r1 e1].
  destruct (shr_fexp prec emax _ e1 loc_Exact) as [r2 e2].
  destruct (shr_m r2); [reflexivity| |reflexivity].
  destruct (e2 <=? emax - prec); reflexivity.
Qed.

Lemma round_sign (mz : positive) (ez : Z) :
  SFnonneg (binary_round prec emax false mz ez) = true.
Proof.
  unfold binary_round. destruct (shl_align _ _ _) as [a e]. apply round_aux_sign.
Qed.

Lemma mul_sign (x y : float) :
  (x <? 0)%float = false -> (y <? 0)%float = false ->
  (x * y <? 0)%float = false.
Proof.
  rewrite !not_negative, mul_spec.
  destruct (Prim2SF x) as [sx|sx| |sx mx ex];
    destruct (Prim2SF y) as [sy|sy| |sy my ey];
    try destruct sx; try destruct sy; try discriminate; try reflexivity.
  intros _ _. apply round_aux_sign.
Qed.

Lemma square_sign (x : float) : (x * x <? 0)%float = false.
Proof.
  rewrite not_negative, mul_spec.
  destruct (Prim2SF x) as [sx|sx| |sx mx ex]; try destruct sx;
    try reflexivity; apply round_aux_sign.
Qed.

Lemma add_sign (x y : float) :
  (x <? 0)%float = false -> (y <? 0)%float = false ->
  (x + y <? 0)%float = false.
Proof.
  rewrite !not_negative, add_spec.
  destruct (Prim2SF x) as [sx|sx| |sx mx ex];
    destruct (Prim2SF y) as [sy|sy| |sy my ey];
    try destruct sx; try destruct sy; try discriminate; try reflexivity.
  intros _ _. unfold SF64add, SFadd. cbn [cond_Zopp Z.add binary_normalize].
  apply round_sign.
Qed.

Lemma added_sign (l : list float) (r : float) :
  (forall x, In x l -> (x <? 0)%float = false) ->
  added l r -> (r <? 0)%float = false.
Proof.
  intros F A. induction A as [| |x Hx|x y _ IHx _ IHy].
  - reflexivity.
  - reflexivity.
  - apply F, Hx.
  - apply add_sign; assumption.
Qed.

Lemma fold_added (l l' : list float) (acc : float) :
  added l' acc -> incl l l' -> added l' (fold_left PrimFloat.add l acc).
Proof.
  revert acc. induction l as [|x l IH]; intros acc A I.
  - exact A.
  - cbn [fold_left]. apply IH.
    + apply added_add; [exact A|]. apply added_item, I. now left.
    + intros z Hz. apply I. now right.
Qed.

(** a count below [2^53] as a float: NaN apart, the quotient of a value
    that is not negative by it is not negative *)
Lemma div_count_sign (x : float) (n : nat) :
  Z.of_nat n < 2 ^ 53 ->
  (x <? 0)%float = false ->
  (x / Py.float_of_int (Z.of_nat n) <? 0)%float = false.
Proof.
  intros B. rewrite !not_negative, div_spec.
  assert (D : Prim2SF (Py.float_of_int (Z.of_nat n)) = S754_zero false \/
              exists mz ez,
                Prim2SF (Py.float_of_int (Z.of_nat n))
                = S754_finite false mz ez).
  { destruct n as [|n]; [left; reflexivity|right].
    assert (P : exists p, Z.of_nat (S n) = Zpos p)
      by (exists (Pos.of_succ_nat n); lia).
    destruct P as [p P]. rewrite P in *.
    pose proof (IEEE.digits2_pos_bounds p) as [PL PU].
    assert (Hd : Zpos (digits2_pos p) <= 53).
    { assert (Zpos (digits2_pos p) - 1 < 53)
        by (apply (Z.pow_lt_mono_r_iff 2); lia). lia. }
    destruct (IEEE.float_of_pos p Hd) as (mz & V & _). eauto. }
  destruct D as [-> | (mz & ez & ->)];
    destruct (Prim2SF x) as [sx|sx| |sx mx ex]; try destruct sx;
    try discriminate; try reflexivity.
  intros _. unfold SF64div, SFdiv.
  destruct (SFdiv_core_binary _ _ _ _ _ _) as [[q e] l]. apply round_aux_sign.
Qed.

End Sign.

Section Energies.

Context {RT : Runtime}.

(** The power two of the C library is never negative. *)
Hypothesis pow2_not_negative :
  forall x, (libm_pow x 2 <? 0)%float = false.

(** NumPy computes a sum by additions of the items, and of zeros, whatever
    their order and grouping. *)
Hypothesis sum_by_additions :
  forall l, added l (np_add_reduce l).

(** X15: With a mass and a spring constant that are not negative, no recorded
    energy is negative, whether kinetic, potential or total; and, for fewer
    than [2^53] samples, neither is the average that the energy label
    shows, in whatever order NumPy adds the energies. *)
Theorem energies_are_never_negative E stop_clicked s s' m k x0 tmax b :
  parse E = Some (Params m k x0 tmax b) ->
  (m <? 0)%float = false ->
  (k <? 0)%float = false ->
  simulate E stop_clicked s = (Published, s') ->
  exists c avg,
    data_dict s' = Some (publish c) /\
    label_energy s' = AvgTotalEnergy avg /\
    (forall i, (i < List.length (times c))%nat ->
       (nth i (kinetic_energy c) nan <? 0)%float = false /\
       (nth i (potential_energy c) nan <? 0)%float = false /\
       (nth i (total_energy c) nan <? 0)%float = false) /\
    (Z.of_nat (List.length (times c)) < 2 ^ 53 ->
     (avg <? 0)%float = false).
Proof.
  intros P Hm Hk H.
  apply simulate_published in H.
  destruct H as (m' & k' & x0' & omega0 & y & omega_d & T & frames & G & ->).
  apply prelude_go in G.
  destruct G as (tmax' & b' & P' & _).
  rewrite P in P'. injection P' as <- <- <- <- <-.
  assert (Half : forall z, (z <? 0)%float = false ->
                           (0.5 * z <? 0)%float = false).
  { intros z Hz. apply Sign.mul_sign; [reflexivity | exact Hz]. }
  assert (Each : forall t,
             (s_ke (solve m k x0 omega0 y omega_d t) <? 0)%float = false /\
             (s_pe (solve m k x0 omega0 y omega_d t) <? 0)%float = false /\
             (s_te (solve m k x0 omega0 y omega_d t) <? 0)%float = false).
  { intros t. cbn [solve s_ke s_pe s_te]. unfold np_pow2.
    assert (Ke : forall v, (0.5 * m * libm_pow v 2 <? 0)%float = false)
      by (intros v; apply Sign.mul_sign; auto).
    assert (Pe : forall x, (0.5 * k * libm_pow x 2 <? 0)%float = false)
      by (intros x; apply Sign.mul_sign; auto).
    split; [apply Ke|]. split; [apply Pe|]. apply Sign.add_sign; auto. }
  cbv zeta. eexists. eexists. split; [reflexivity|]. split; [reflexivity|].
  project_columns. rewrite !length_map, !length_seq. split.
  - intros i Hi. rewrite !nth_map_seq by exact Hi. apply Each.
  - intros B. unfold np_mean. rewrite length_map, length_seq.
    apply Sign.div_count_sign; [exact B|]. unfold np_sum.
    destruct (map _ _) as [|z0 l0] eqn:M; [reflexivity|]. rewrite <- M.
    apply (Sign.added_sign (l := map (fun i => s_te (solve m k x0 omega0 y omega_d (tick_time i)))
                                  (seq 0 (executed stop_clicked (Py.range frames) true))));
      [|apply sum_by_additions].
    intros z Hz. apply in_map_iff in Hz.
    destruct Hz as (i & <- & _). apply Each.
Qed.

End Energies.

(** ** The further properties on examples *)

Section OnScenarios.

Import Examples Scenarios.

Local Open Scope string_scope.

Lemma libm_pow2_not_negative x : (Libm.pow x 2 <? 0)%float = false.
Proof. apply Sign.square_sign. Qed.

Lemma libm_sum_by_additions l : added l (Libm.add_reduce l).
Proof. apply Sign.fold_added; [apply added_zero | apply incl_refl]. Qed.

(** An overdamped run after the brief one leaves its dataset in place. *)
Lemma only_published_runs_write_data_witness :
  data_dict (snd (run overdamped never after_brief)) = data_dict after_brief /\
  label_energy (snd (run overdamped never after_brief))
  = label_energy after_brief /\
  updates (snd (run overdamped never after_brief)) = updates after_brief /\
  running (snd (run overdamped never after_brief)) = true.
Proof.
  apply (@only_published_runs_write_data Libm.runtime overdamped never
           after_brief (fst (run overdamped never after_brief))).
  - apply surjective_pairing.
  - vm_compute. discriminate.
Defined.

(** A mass of zero: the division raises. *)
Lemma simulate_raises_arithmetic_errors_only_witness :
  (ZeroDivisionError = ZeroDivisionError \/
   ZeroDivisionError = OverflowError \/
   ZeroDivisionError = ValueError) /\
  updates (snd (run massless never after_brief)) = updates after_brief.
Proof.
  apply (@simulate_raises_arithmetic_errors_only Libm.runtime massless never
           after_brief ZeroDivisionError (snd (run massless never after_brief))).
  vm_compute. reflexivity.
Defined.

Lemma zero_mass_raises_witness :
  run massless never after_brief
  = (Uncaught ZeroDivisionError, set_running true after_brief).
Proof.
  apply (@zero_mass_raises Libm.runtime massless never after_brief
           (p_m (params_of massless)) (p_k (params_of massless))
           (p_x0 (params_of massless)) (p_tmax (params_of massless))
           (p_b (params_of massless))).
  - vm_compute. reflexivity.
  - vm_compute. reflexivity.
Defined.

(** A duration of [10^309] seconds is infinite: [int] overflows, and the
    result label shows the frequencies all the same. *)
Lemma endless_duration_raises_witness :
  fst (run endless never initial) = Uncaught OverflowError /\
  render (label_result (snd (run endless never initial)))
  <> render (label_result initial).
Proof.
  destruct (@endless_duration_raises Libm.runtime endless never initial
              (p_m (params_of endless)) (p_k (params_of endless))
              (p_x0 (params_of endless)) (p_tmax (params_of endless))
              (p_b (params_of endless))) as (e & H & He).
  - vm_compute. reflexivity.
  - vm_compute. reflexivity.
  - vm_compute. reflexivity.
  - vm_compute. reflexivity.
  - vm_compute. reflexivity.
  - vm_compute. reflexivity.
  - unfold run. rewrite H. split.
    + cbn [fst]. rewrite He. vm_compute. reflexivity.
    + vm_compute. discriminate.
Defined.

(** A mass of minus one: the run is published, with NaN for the natural
    frequency. *)
Lemma negative_ratio_passes_the_gate_witness :
  fst (run negative_mass never initial) <> RejectedOverdamped /\
  exists gamma omega_d T,
    label_result (snd (run negative_mass never initial))
    = Parameters nan gamma omega_d T.
Proof.
  destruct (@negative_ratio_passes_the_gate Libm.runtime negative_mass never
              initial
              (p_m (params_of negative_mass)) (p_k (params_of negative_mass))
              (p_x0 (params_of negative_mass))
              (p_tmax (params_of negative_mass))
              (p_b (params_of negative_mass))) as [G L].
  - vm_compute. reflexivity.
  - vm_compute. reflexivity.
  - split; [exact G|]. apply L. vm_compute. reflexivity.
Defined.

(** The brief run started from the fresh window and after a stopped run. *)
Lemma run_forgets_previous_state_witness :
  data_dict (snd (run brief never initial))
  = data_dict (snd (run brief never (snd (run default (click_at 5) initial)))).
Proof.
  destruct (@run_forgets_previous_state Libm.runtime brief never initial
              (snd (run default (click_at 5) initial))) as [_ H].
  destruct H as (_ & D & _).
  - vm_compute. reflexivity.
  - exact D.
Defined.

(** Stop clicked once during tick 1, or held down from tick 1 on. *)
Lemma clicks_after_the_first_are_not_seen_witness :
  run brief (click_at 1) initial = run brief (held_from 1) initial.
Proof.
  apply (@clicks_after_the_first_are_not_seen Libm.runtime brief (click_at 1)
           (held_from 1) initial 1%nat).
  - intros i Hi. destruct i as [|[|i]]; [reflexivity | reflexivity | lia].
  - reflexivity.
Defined.

(** Stop clicked during the third and last tick of the brief run. *)
Lemma stop_during_the_last_tick_keeps_all_samples_witness :
  exists s',
    run brief (click_at 2) initial = (Published, s') /\
    data_dict s' = data_dict after_brief /\
    label_result s' = label_result after_brief /\
    label_energy s' = label_energy after_brief /\
    updates s' = updates after_brief /\
    running s' = false /\
    running after_brief = true.
Proof.
  apply (@stop_during_the_last_tick_keeps_all_samples Libm.runtime brief
           (click_at 2) initial after_brief 2%nat).
  - vm_compute. reflexivity.
  - vm_compute. reflexivity.
  - reflexivity.
  - intros i Hi. destruct i as [|[|i]]; [reflexivity | reflexivity | lia].
Defined.

(** Stop clicked during the very first tick of the brief run. *)
Lemma first_tick_is_always_recorded_witness :
  exists c,
    data_dict (snd (run brief (click_at 0) initial)) = Some (publish c) /\
    (1 <= List.length (times c))%nat /\
    nth 0 (times c) nan = 0%float.
Proof.
  apply (@first_tick_is_always_recorded Libm.runtime brief (click_at 0) initial
           (snd (run brief (click_at 0) initial))
           (p_tmax (params_of brief)) 3%Z).
  - vm_compute. reflexivity.
  - vm_compute. reflexivity.
  - lia.
  - vm_compute. reflexivity.
Defined.

Lemma plot_after_a_run_witness :
  exists c,
    data_dict after_brief = Some (publish c) /\
    plot_data after_brief = Some (Ok (figure_of c)) /\
    forall p cv, In p (figure_of c) -> In cv (curves p) ->
      c_x cv = times c /\ List.length (c_y cv) = List.length (c_x cv).
Proof.
  apply (@plot_after_a_run Libm.runtime brief never initial after_brief).
  vm_compute. reflexivity.
Defined.

(** The brief run and the same numbers typed otherwise, the second after
    an overdamped run: one table, one dataset. *)
Lemma export_determines_the_dataset_witness :
  data_dict after_brief
  = data_dict (snd (run brief_retyped never
                      (snd (run overdamped never initial)))).
Proof.
  apply (@export_determines_the_dataset Libm.runtime
           brief never initial after_brief
           brief_retyped never (snd (run overdamped never initial))
           (snd (run brief_retyped never
                   (snd (run overdamped never initial))))
           "run.csv").
  - vm_compute. reflexivity.
  - vm_compute. reflexivity.
  - discriminate.
  - vm_compute. reflexivity.
Defined.

(** The time of tick 7: [7/60] to within half a unit in the last place. *)
Lemma tick_time_accuracy_witness :
  exists Q e,
    Prim2SF (tick_time 7) = S754_finite false Q e /\
    2 ^ 52 <= Zpos Q < 2 ^ 53 /\
    -110 <= e /\
    2 * Z.abs (Z.of_nat 7 * dt_mantissa * 2 ^ 52 - Zpos Q * 2 ^ (e + 110))
    <= 2 ^ (e + 110).
Proof.
  apply (@tick_time_accuracy 7%nat).
  - lia.
  - reflexivity.
Defined.

(** The claim C4 fails where rounding separates the two sides of the gate.
    With [m = 49], [k = 9] and [b = 42] the damping is critical: the squares
    of [b/(2m)] and of [sqrt(k/m)] are equal, [42^2 * 49 = (2*49)^2 * 9].
    But the rounded square root of [9/49] is above the rounded quotient
    [42/98]: the gate is passed, three ticks are executed and their samples
    published. *)
Lemma critical_damping_is_published :
  parse (RT := Libm.runtime) critical
  = Some (Params 49 9 1 0x1.999999999999ap-5 42) /\
  (42 * 42 * 49 = (2 * 49) * (2 * 49) * 9)%Z /\
  (sqrt (9 / 49) <=? 42 / (2 * 49))%float = false /\
  fst (run critical never initial) = Published /\
  updates (snd (run critical never initial)) = 3%nat /\
  data_dict (snd (run critical never initial)) <> None.
Proof.
  split; [vm_compute; reflexivity|]. split; [reflexivity|].
  split; [vm_compute; reflexivity|]. split; [vm_compute; reflexivity|].
  split; [vm_compute; reflexivity|]. vm_compute. discriminate.
Qed.

(** The claim C5 fails in its first sample.  With [m = 10^-10],
    [k = 10^308], [b = 0.1] and [x0 = 1] the motion is underdamped,
    [b^2 < 4*m*k], yet [k/m] overflows: the frequencies are infinite, the
    angle [omega_d * 0] is NaN, and the first position and velocity are NaN
    instead of [x0] and [-x0*gamma]. *)
Lemma first_sample_is_not_x0 :
  p_x0 (params_of stiff) = 1%float /\
  (1 * 1 * 10 ^ 10 < 4 * 10 ^ 308 * (10 * 10))%Z /\
  fst (run stiff never initial) = Published /\
  exists ts xs vs accs kes pes tes,
    data_dict (snd (run stiff never initial)) =
      Some [ ("Time (s)", ts); ("Position (m)", xs); ("Velocity (m/s)", vs);
             ("Acceleration (m/s²)", accs); ("Kinetic Energy (J)", kes);
             ("Potential Energy (J)", pes); ("Total Energy (J)", tes) ] /\
    hd_error ts = Some 0%float /\
    hd_error xs = Some nan /\
    hd_error xs <> Some (p_x0 (params_of stiff)) /\
    hd_error vs = Some nan.
Proof.
  split; [vm_compute; reflexivity|]. split; [reflexivity|].
  split; [vm_compute; reflexivity|].
  do 7 eexists. split; [vm_compute; reflexivity|].
  split; [reflexivity|]. split; [reflexivity|]. split; [|reflexivity].
  vm_compute. intros N.
  apply (f_equal (fun o => match o with
                           | Some z => is_nan z
                           | None => false
                           end)) in N.
  vm_compute in N. discriminate.
Qed.




(** The energies of the brief run. *)
Lemma energies_are_never_negative_witness :
  exists c avg,
    data_dict after_brief = Some (publish c) /\
    label_energy after_brief = AvgTotalEnergy avg /\
    (forall i, (i < List.length (times c))%nat ->
       (nth i (kinetic_energy c) nan <? 0)%float = false /\
       (nth i (potential_energy c) nan <? 0)%float = false /\
       (nth i (total_energy c) nan <? 0)%float = false) /\
    (Z.of_nat (List.length (times c)) < 2 ^ 53 ->
     (avg <? 0)%float = false).
Proof.
  apply (@energies_are_never_negative Libm.runtime libm_pow2_not_negative
           libm_sum_by_additions brief never initial after_brief
           (p_m (params_of brief)) (p_k (params_of brief))
           (p_x0 (params_of brief)) (p_tmax (params_of brief))
           (p_b (params_of brief))).
  - vm_compute. reflexivity.
  - vm_compute. reflexivity.
  - vm_compute. reflexivity.
  - vm_compute. reflexivity.
Defined.

End OnScenarios.
